(** * pytest-cov coverage controllers ([src/pytest_cov/engine.py])

    A shallow embedding of the three controllers [Central], [DistMaster]
    and [DistWorker] and of their common base class [CovController],
    together with the properties of the master/worker protocol.

    Python strings are [string]s (one element per character), dictionaries
    are [gmap]s, sets are [gset]s, and the methods run in a small state and
    exception monad over the controller object and the process state. *)

From Stdlib Require Import Ascii.
From stdpp Require Import base gmap strings list pretty sorting.

Local Open Scope Z_scope.

(** * Python string primitives *)

Module PyStr.

(** The line feed, Python's ['\n']. *)
Definition nl : string := String "010"%char "".

(** [s * n] for a natural [n]. *)
Fixpoint repeat (s : string) (n : nat) : string :=
  match n with
  | O => ""
  | S n' => s +:+ repeat s n'
  end.

(** [s * k] for a Python integer [k]; empty when [k <= 0]. *)
Definition mul (s : string) (k : Z) : string := repeat s (Z.to_nat k).

(** [sep.join(l)]. *)
Fixpoint join (sep : string) (l : list string) : string :=
  match l with
  | [] => ""
  | x :: l' =>
      match l' with
      | [] => x
      | _ :: _ => x +:+ sep +:+ join sep l'
      end
  end.

(** [s.replace("", new)]: [new] before every character and at the end. *)
Fixpoint interleave (new s : string) : string :=
  match s with
  | "" => new
  | String c s' => new +:+ String c (interleave new s')
  end.

(** [s.replace(old, new)] for a non-empty [old]: a left to right scan that
    substitutes [new] at every match of [old] and resumes after the match;
    [skip] counts the characters of the current match still to be passed. *)
Fixpoint replace_go (old new : string) (skip : nat) (s : string) : string :=
  match s with
  | "" => ""
  | String c s' =>
      match skip with
      | S k => replace_go old new k s'
      | O =>
          if String.prefix old s
          then new +:+ replace_go old new (Nat.pred (String.length old)) s'
          else String c (replace_go old new O s')
      end
  end.

(** [s.replace(old, new)]. *)
Definition replace (s old new : string) : string :=
  match old with
  | "" => interleave new s
  | String _ _ => replace_go old new O s
  end.

(** [old in s]: [old] occurs in [s] as a substring. *)
Fixpoint contains (old s : string) : bool :=
  String.prefix old s ||
  match s with
  | "" => false
  | String _ s' => contains old s'
  end.

(** ['%06d' % n] for a non-negative [n]: decimal, zero-padded to width 6. *)
Definition fmt_06d (n : N) : string :=
  let d := pretty n in
  repeat "0" (6 - String.length d)%nat +:+ d.

End PyStr.

(** * Report streams and [CovController.sep] *)

(** What a stream has received: calls of its own [sep] method (terminal
    writers have one) and plain [write]s. *)
Inductive StreamOp :=
| OpSep (s txt : string)
| OpWrite (v : string).

Record Stream := mkStream {
  has_sep : bool;            (* hasattr(stream, 'sep') *)
  written : list StreamOp;
}.

Definition stream_sep (stream : Stream) (s txt : string) : Stream :=
  mkStream (has_sep stream) (written stream ++ [OpSep s txt]).

Definition stream_write (stream : Stream) (v : string) : Stream :=
  mkStream (has_sep stream) (written stream ++ [OpWrite v]).

(** [CovController.sep(stream, s, txt)]. *)
Definition sep (stream : Stream) (s txt : string) : Stream :=
  if has_sep stream then stream_sep stream s txt
  else
    let sep_total := Z.max (70 - 2 - Z.of_nat (String.length txt)) 2 in
    let sep_len := sep_total `div` 2 in
    let sep_extra := sep_total `mod` 2 in
    let out := PyStr.mul s sep_len +:+ " " +:+ txt +:+ " " +:+
               PyStr.mul s (sep_len + sep_extra) +:+ PyStr.nl in
    stream_write stream out.

(** * Values, exceptions and the monad of the methods *)

(** A value on the sideband channel from the master to a worker: a string
    (host name, top directory) or a list of strings (the rsync roots). *)
Inductive pyval :=
| PStr (s : string)
| PList (l : list string).

(** [s == v] for a string [s]. *)
Definition pyval_eq_str (s : string) (v : pyval) : bool :=
  match v with
  | PStr s' => bool_decide (s = s')
  | PList _ => false
  end.

Inductive exn :=
| AttributeError (attr : string)
| KeyError (key : string)
| TypeError.

Inductive result (A : Type) :=
| Ok (a : A)
| Raise (e : exn).
Arguments Ok {A} a.
Arguments Raise {A} e.

(** * The coverage engine, at its interface

    [coverage.Coverage] is an external collaborator: a session object is a
    reference into a store that keeps its configuration, and every call of
    the engine is recorded in the order it is made. *)

Inductive DataSuffix :=
| SuffixNone
| SuffixTrue
| SuffixStr (s : string).

Record Coverage := mkCoverage {
  cv_source : option (list string);
  cv_branch : bool;
  cv_data_suffix : DataSuffix;
  cv_config_file : string;
  cv_data_file : string;                  (* cov.config.data_file *)
  cv_paths : gmap string (list string);   (* cov.config.paths *)
}.

Inductive CovCall :=
| CallCleanup                                  (* embed.cleanup() *)
| CallNew (ref : nat)                          (* coverage.Coverage(...) *)
| CallStart (ref : nat)
| CallStop (ref : nat)
| CallErase (ref : nat)
| CallLoad (ref : nat)
| CallSave (ref : nat)
| CallCombine (ref : nat)
| CallDataUpdate (ref : nat) (payload : string) (* cov.data.update(read(payload)) *)
| CallDataWrite (ref : nat).                   (* cov.data.write_fileobj(buff) *)

(** * Node descriptors *)

Record VersionInfo := mkVersionInfo {
  major : N;
  minor : N;
  micro : N;
  releaselevel : string;
  serial : N;
}.

Record RInfo := mkRInfo {
  ri_platform : string;
  ri_version_info : VersionInfo;
}.

(** [CovController.get_node_desc(platform, version_info)]. *)
Definition get_node_desc (platform : string) (version_info : VersionInfo) : string :=
  "platform " +:+ platform +:+ ", python " +:+
  (pretty (major version_info) +:+ "." +:+ pretty (minor version_info) +:+ "." +:+
   pretty (micro version_info) +:+ "-" +:+ releaselevel version_info +:+ "-" +:+
   pretty (serial version_info)).

(** * The process a controller runs in *)

(** What the process reads but never changes: the results of [socket],
    [os], [os.path], [sys] and [random], and what the coverage engine
    derives from a configuration file or serialises from its data. *)
Record Host := mkHost {
  gethostname : string;
  getpid : N;
  getcwd : string;
  pathsep : string;
  abspath : string → string;
  path_exists : string → bool;
  sys_platform : string;
  sys_version_info : VersionInfo;
  random_stream : nat → N;
  rc_data_file : string → string;
  rc_paths : string → gmap string (list string);
  data_dump : list CovCall → nat → string;
}.

Record World := mkWorld {
  environ : gmap string string;    (* os.environ *)
  covs : gmap nat Coverage;        (* the live Coverage objects *)
  next_cov : nat;
  calls : list CovCall;
  rand_pos : nat;
}.

(** The pytest configuration object as the controllers use it. *)
Record Config := mkConfig {
  workerinput : option (gmap string pyval);
  workeroutput : option (gmap string string);
  rsyncdir : list string;          (* config.option.rsyncdir *)
}.

(** A worker node as the master sees it. *)
Record Node := mkNode {
  node_workerinput : gmap string pyval;
  node_workeroutput : option (gmap string string);
  gateway_id : string;
  gateway_rinfo : RInfo;
  nodemanager_roots : list string;
}.

Record CovController := mkCovController {
  cov_source : option (list string);
  cov_report : list string;
  cov_config : string;
  cov_append : bool;
  cov_branch : bool;
  config : option Config;
  nodeid : string;
  cov : option nat;
  combining_cov : option nat;
  data_file : option string;
  node_descs : gset string;
  failed_workers : list Node;
  topdir : string;
  is_collocated : option bool;     (* set by DistWorker.start only *)
}.

Record Proc := mkProc {
  self : CovController;
  world : World;
}.

Definition M (A : Type) : Type := Proc → result A * Proc.

#[global] Instance M_ret : MRet M := λ A a p, (Ok a, p).

#[global] Instance M_bind : MBind M := λ A B f m p,
  match m p with
  | (Ok a, p') => f a p'
  | (Raise e, p') => (Raise e, p')
  end.

Definition raise {A} (e : exn) : M A := λ p, (Raise e, p).
Definition get_self : M CovController := λ p, (Ok (self p), p).
Definition get_world : M World := λ p, (Ok (world p), p).
Definition upd_self (f : CovController → CovController) : M unit :=
  λ p, (Ok tt, mkProc (f (self p)) (world p)).
Definition upd_world (f : World → World) : M unit :=
  λ p, (Ok tt, mkProc (self p) (f (world p))).

Definition when (b : bool) (m : M unit) : M unit := if b then m else mret tt.

Fixpoint mapM {A B} (f : A → M B) (l : list A) : M (list B) :=
  match l with
  | [] => mret []
  | x :: l' => y ← f x; ys ← mapM f l'; mret (y :: ys)
  end.

(** [d[k]]. *)
Definition getitem {V} (d : gmap string V) (k : string) : M V :=
  match d !! k with
  | Some v => mret v
  | None => raise (KeyError k)
  end.

(** [k in d]. *)
Definition has_key {V} (k : string) (d : gmap string V) : bool :=
  bool_decide (is_Some (d !! k)).

(** [obj.attr] for an attribute that may be [None] or missing. *)
Definition getattr {A} (o : option A) (attr : string) : M A :=
  match o with
  | Some a => mret a
  | None => raise (AttributeError attr)
  end.

(** ** Field updates *)

Definition set_environ (e : gmap string string) (w : World) : World :=
  mkWorld e (covs w) (next_cov w) (calls w) (rand_pos w).
Definition set_covs (c : gmap nat Coverage) (w : World) : World :=
  mkWorld (environ w) c (next_cov w) (calls w) (rand_pos w).
Definition log_call (c : CovCall) (w : World) : World :=
  mkWorld (environ w) (covs w) (next_cov w) (calls w ++ [c]) (rand_pos w).
Definition alloc_cov (cv : Coverage) (w : World) : World :=
  mkWorld (environ w) (<[next_cov w := cv]> (covs w)) (S (next_cov w))
          (calls w ++ [CallNew (next_cov w)]) (rand_pos w).
Definition next_random (w : World) : World :=
  mkWorld (environ w) (covs w) (next_cov w) (calls w) (S (rand_pos w)).

Definition set_cov_paths (ps : gmap string (list string)) (cv : Coverage) : Coverage :=
  mkCoverage (cv_source cv) (cv_branch cv) (cv_data_suffix cv) (cv_config_file cv)
             (cv_data_file cv) ps.

Definition set_workeroutput (d : gmap string string) (c : Config) : Config :=
  mkConfig (workerinput c) (Some d) (rsyncdir c).
Definition set_rsyncdir (l : list string) (c : Config) : Config :=
  mkConfig (workerinput c) (workeroutput c) l.
Definition set_node_workerinput (d : gmap string pyval) (n : Node) : Node :=
  mkNode d (node_workeroutput n) (gateway_id n) (gateway_rinfo n) (nodemanager_roots n).

Definition set_cov_source (v : option (list string)) (s : CovController) : CovController :=
  mkCovController v (cov_report s) (cov_config s) (cov_append s) (cov_branch s)
    (config s) (nodeid s) (cov s) (combining_cov s) (data_file s) (node_descs s)
    (failed_workers s) (topdir s) (is_collocated s).
Definition set_cov_config (v : string) (s : CovController) : CovController :=
  mkCovController (cov_source s) (cov_report s) v (cov_append s) (cov_branch s)
    (config s) (nodeid s) (cov s) (combining_cov s) (data_file s) (node_descs s)
    (failed_workers s) (topdir s) (is_collocated s).
Definition set_config (v : option Config) (s : CovController) : CovController :=
  mkCovController (cov_source s) (cov_report s) (cov_config s) (cov_append s) (cov_branch s)
    v (nodeid s) (cov s) (combining_cov s) (data_file s) (node_descs s)
    (failed_workers s) (topdir s) (is_collocated s).
Definition set_cov (v : option nat) (s : CovController) : CovController :=
  mkCovController (cov_source s) (cov_report s) (cov_config s) (cov_append s) (cov_branch s)
    (config s) (nodeid s) v (combining_cov s) (data_file s) (node_descs s)
    (failed_workers s) (topdir s) (is_collocated s).
Definition set_combining_cov (v : option nat) (s : CovController) : CovController :=
  mkCovController (cov_source s) (cov_report s) (cov_config s) (cov_append s) (cov_branch s)
    (config s) (nodeid s) (cov s) v (data_file s) (node_descs s)
    (failed_workers s) (topdir s) (is_collocated s).
Definition set_node_descs (v : gset string) (s : CovController) : CovController :=
  mkCovController (cov_source s) (cov_report s) (cov_config s) (cov_append s) (cov_branch s)
    (config s) (nodeid s) (cov s) (combining_cov s) (data_file s) v
    (failed_workers s) (topdir s) (is_collocated s).
Definition set_failed_workers (v : list Node) (s : CovController) : CovController :=
  mkCovController (cov_source s) (cov_report s) (cov_config s) (cov_append s) (cov_branch s)
    (config s) (nodeid s) (cov s) (combining_cov s) (data_file s) (node_descs s)
    v (topdir s) (is_collocated s).
Definition set_is_collocated (v : option bool) (s : CovController) : CovController :=
  mkCovController (cov_source s) (cov_report s) (cov_config s) (cov_append s) (cov_branch s)
    (config s) (nodeid s) (cov s) (combining_cov s) (data_file s) (node_descs s)
    (failed_workers s) (topdir s) v.

(** * The controllers *)

Section Controllers.

Context (host : Host).

(** ** The engine's operations *)

(** [embed.cleanup()]. Modelled from the spec: [embed.py] is not part of
    the reviewed module; [start()] "optionally tear[s] down any stale
    process-wide setup", which is a call into the engine and leaves the
    controller and the environment variables alone. *)
Definition cleanup : M unit := upd_world (log_call CallCleanup).

(** [coverage.Coverage(source=, branch=, data_suffix=, data_file=, config_file=)]. *)
Definition Coverage_new (source : option (list string)) (branch : bool)
    (data_suffix : DataSuffix) (data_file : option string) (config_file : string) : M nat :=
  w ← get_world;
  let cv := mkCoverage source branch data_suffix config_file
              (default (rc_data_file host config_file) data_file)
              (rc_paths host config_file) in
  upd_world (alloc_cov cv);;
  mret (next_cov w).

Definition cov_start (c : nat) : M unit := upd_world (log_call (CallStart c)).
Definition cov_stop (c : nat) : M unit := upd_world (log_call (CallStop c)).
Definition cov_erase (c : nat) : M unit := upd_world (log_call (CallErase c)).
Definition cov_load (c : nat) : M unit := upd_world (log_call (CallLoad c)).
Definition cov_save (c : nat) : M unit := upd_world (log_call (CallSave c)).
Definition cov_combine (c : nat) : M unit := upd_world (log_call (CallCombine c)).
Definition cov_data_update (c : nat) (payload : string) : M unit :=
  upd_world (log_call (CallDataUpdate c payload)).

(** [buff = StringIO(); cov.data.write_fileobj(buff); buff.getvalue()]. *)
Definition cov_data_write (c : nat) : M string :=
  w ← get_world;
  upd_world (log_call (CallDataWrite c));;
  mret (data_dump host (calls w) c).

(** The Coverage object behind a reference. *)
Definition cov_object (c : nat) : M Coverage :=
  w ← get_world;
  getattr (covs w !! c) "config".

(** [cov.config.paths[key] = v]. *)
Definition cov_paths_set (c : nat) (key : string) (v : list string) : M unit :=
  cv ← cov_object c;
  upd_world (λ w, set_covs (<[c := set_cov_paths (<[key := v]> (cv_paths cv)) cv]> (covs w)) w).

(** [cov.config.paths[key].append(x)]. *)
Definition cov_paths_append (c : nat) (key : string) (x : string) : M unit :=
  cv ← cov_object c;
  l ← getitem (cv_paths cv) key;
  upd_world (λ w, set_covs (<[c := set_cov_paths (<[key := l ++ [x]]> (cv_paths cv)) cv]> (covs w)) w).

(** [random.randint(a, b)] for [a <= b]. *)
Definition randint (a b : N) : M N :=
  w ← get_world;
  upd_world next_random;;
  mret (a + random_stream host (rand_pos w) `mod` (b - a + 1))%N.

(** [os.environ[k] = v] and [os.environ.pop(k, None)]. *)
Definition environ_set (k v : string) : M unit :=
  upd_world (λ w, set_environ (<[k := v]> (environ w)) w).
Definition environ_pop (k : string) : M unit :=
  upd_world (λ w, set_environ (delete k (environ w)) w).

(** [self.cov], on which a method or attribute is about to be used. *)
Definition self_cov (attr : string) : M nat :=
  s ← get_self;
  getattr (cov s) attr.

(** ** [CovController] *)

(** [CovController.__init__]. *)
Definition CovController_init (cov_source : option (list string)) (cov_report : list string)
    (cov_config : string) (cov_append cov_branch : bool)
    (config : option Config) (nodeid : string) : CovController :=
  mkCovController cov_source cov_report cov_config cov_append cov_branch config nodeid
    None None None ∅ [] (getcwd host) None.

(** [CovController.set_env]. *)
Definition set_env : M unit :=
  s ← get_self;
  match cov_source s with
  | None => environ_set "COV_CORE_SOURCE" (pathsep host)
  | Some src => environ_set "COV_CORE_SOURCE" (PyStr.join (pathsep host) src)
  end;;
  let config_file := abspath host (cov_config s) in
  (if path_exists host config_file
   then environ_set "COV_CORE_CONFIG" config_file
   else environ_set "COV_CORE_CONFIG" (pathsep host));;
  c ← self_cov "config";
  cv ← cov_object c;
  environ_set "COV_CORE_DATAFILE" (abspath host (cv_data_file cv));;
  when (cov_branch s) (environ_set "COV_CORE_BRANCH" "enabled").

(** [CovController.unset_env]. *)
Definition unset_env : M unit :=
  environ_pop "COV_CORE_SOURCE";;
  environ_pop "COV_CORE_CONFIG";;
  environ_pop "COV_CORE_DATAFILE";;
  environ_pop "COV_CORE_BRANCH".

(** [CovController.pause]. *)
Definition pause : M unit :=
  c ← self_cov "stop";
  cov_stop c;;
  unset_env.

(** [CovController.resume]. *)
Definition resume : M unit :=
  c ← self_cov "start";
  cov_start c;;
  set_env.

(** The erase-or-load policy shared by the three [start] methods. *)
Definition load_or_erase (c : nat) : M unit :=
  s ← get_self;
  if cov_append s then cov_load c else cov_erase c.

(** ** [Central] *)

(** [Central.start]. *)
Definition Central_start : M unit :=
  cleanup;;
  s ← get_self;
  c ← Coverage_new (cov_source s) (cov_branch s) SuffixNone None (cov_config s);
  upd_self (set_cov (Some c));;
  cv ← cov_object c;
  cc ← Coverage_new (cov_source s) (cov_branch s) SuffixNone
         (Some (abspath host (cv_data_file cv))) (cov_config s);
  upd_self (set_combining_cov (Some cc));;
  load_or_erase c;;
  cov_start c;;
  set_env.

(** [Central.finish]. *)
Definition Central_finish : M unit :=
  unset_env;;
  c ← self_cov "stop";
  cov_stop c;;
  cov_save c;;
  upd_self (λ s, set_cov (combining_cov s) s);;
  c ← self_cov "load";
  cov_load c;;
  cov_combine c;;
  cov_save c;;
  let node_desc := get_node_desc (sys_platform host) (sys_version_info host) in
  upd_self (λ s, set_node_descs ({[node_desc]} ∪ node_descs s) s).

(** ** [DistMaster] *)

(** [DistMaster.start]. *)
Definition DistMaster_start : M unit :=
  cleanup;;
  s ← get_self;
  when (bool_decide (cov_config s ≠ "") && path_exists host (cov_config s))
    (cfg ← getattr (config s) "option";
     upd_self (set_config (Some (set_rsyncdir (rsyncdir cfg ++ [cov_config s]) cfg))));;
  c ← Coverage_new (cov_source s) (cov_branch s) SuffixNone None (cov_config s);
  upd_self (set_cov (Some c));;
  cv ← cov_object c;
  cc ← Coverage_new (cov_source s) (cov_branch s) SuffixNone
         (Some (abspath host (cv_data_file cv))) (cov_config s);
  upd_self (set_combining_cov (Some cc));;
  load_or_erase c;;
  cov_start c;;
  cov_paths_set c "source" [topdir s].

(** [DistMaster.configure_node]; the node object is updated in place. *)
Definition DistMaster_configure_node (node : Node) : M Node :=
  s ← get_self;
  mret (set_node_workerinput
          (<["cov_master_rsync_roots" := PList (nodemanager_roots node)]>
             (<["cov_master_topdir" := PStr (topdir s)]>
                (<["cov_master_host" := PStr (gethostname host)]>
                   (node_workerinput node))))
          node).

(** [DistMaster.testnodedown]; [workeroutput(node, {})] is the node's
    output mapping, or an empty one when the node has none. *)
Definition DistMaster_testnodedown (node : Node) : M unit :=
  let output := default ∅ (node_workeroutput node) in
  if negb (has_key "cov_worker_node_id" output)
  then upd_self (λ s, set_failed_workers (failed_workers s ++ [node]) s)
  else
    when (has_key "cov_worker_data" output)
      (r ← randint 0 999999;
       node_id ← getitem output "cov_worker_node_id";
       let data_suffix := gethostname host +:+ "." +:+ pretty (getpid host) +:+ "." +:+
                          PyStr.fmt_06d r +:+ "." +:+ node_id in
       s ← get_self;
       c ← Coverage_new (cov_source s) (cov_branch s) (SuffixStr data_suffix) None (cov_config s);
       cov_start c;;
       data ← getitem output "cov_worker_data";
       cov_data_update c data;;
       cov_stop c;;
       cov_save c;;
       path ← getitem output "cov_worker_path";
       sc ← self_cov "config";
       cov_paths_append sc "source" path);;
    let rinfo := gateway_rinfo node in
    let node_desc := get_node_desc (ri_platform rinfo) (ri_version_info rinfo) in
    upd_self (λ s, set_node_descs ({[node_desc]} ∪ node_descs s) s).

(** [DistMaster.finish]. *)
Definition DistMaster_finish : M unit :=
  c ← self_cov "stop";
  cov_stop c;;
  cov_save c;;
  upd_self (λ s, set_cov (combining_cov s) s);;
  c ← self_cov "load";
  cov_load c;;
  cov_combine c;;
  cov_save c.

(** ** [DistWorker] *)

(** [workerinput(self.config)] and [workeroutput(self.config)]. *)
Definition self_workerinput : M (gmap string pyval) :=
  s ← get_self;
  cfg ← getattr (config s) "workerinput";
  getattr (workerinput cfg) "workerinput".

Definition self_workeroutput : M (gmap string string) :=
  s ← get_self;
  cfg ← getattr (config s) "workeroutput";
  getattr (workeroutput cfg) "workeroutput".

(** The output mapping is a dictionary owned by the configuration object:
    writing to it updates the object in place. *)
Definition put_workeroutput (d : gmap string string) : M unit :=
  s ← get_self;
  cfg ← getattr (config s) "workeroutput";
  upd_self (set_config (Some (set_workeroutput d cfg))).

(** [source.replace(old, new)] for a string [source] and [new]. *)
Definition str_replace (source : string) (old : pyval) (new : string) : M string :=
  match old with
  | PStr o => mret (PyStr.replace source o new)
  | PList _ => raise TypeError
  end.

(** [DistWorker.start]. *)
Definition DistWorker_start : M unit :=
  cleanup;;
  s ← get_self;
  wi ← self_workerinput;
  master_host ← getitem wi "cov_master_host";
  collocated ←
    (if pyval_eq_str (gethostname host) master_host
     then d ← getitem wi "cov_master_topdir"; mret (pyval_eq_str (topdir s) d)
     else mret false);
  upd_self (set_is_collocated (Some collocated));;
  when (negb collocated)
    (master_topdir ← getitem wi "cov_master_topdir";
     let worker_topdir := topdir s in
     match cov_source s with
     | Some src =>
         src' ← mapM (λ source, str_replace source master_topdir worker_topdir) src;
         upd_self (set_cov_source (Some src'))
     | None => mret tt
     end;;
     cfg' ← str_replace (cov_config s) master_topdir worker_topdir;
     upd_self (set_cov_config cfg'));;
  s ← get_self;
  c ← Coverage_new (cov_source s) (cov_branch s) SuffixTrue None (cov_config s);
  upd_self (set_cov (Some c));;
  load_or_erase c;;
  cov_start c;;
  set_env.

(** [DistWorker.finish]. *)
Definition DistWorker_finish : M unit :=
  unset_env;;
  c ← self_cov "stop";
  cov_stop c;;
  s ← get_self;
  collocated ← getattr (is_collocated s) "is_collocated";
  if collocated : bool
  then
    cov_save c;;
    out ← self_workeroutput;
    put_workeroutput (<["cov_worker_node_id" := nodeid s]> out)
  else
    cov_combine c;;
    cov_save c;;
    buff ← cov_data_write c;
    out ← self_workeroutput;
    put_workeroutput
      (<["cov_worker_data" := buff]>
         (<["cov_worker_node_id" := nodeid s]>
            (<["cov_worker_path" := topdir s]> out))).

(** [DistWorker.summary]: only the master reports. *)
Definition DistWorker_summary : M unit := mret tt.

(** ** The three variants behind the common lifecycle *)

Inductive Variant := Central | DistMaster | DistWorker.

Definition start (v : Variant) : M unit :=
  match v with
  | Central => Central_start
  | DistMaster => DistMaster_start
  | DistWorker => DistWorker_start
  end.

Definition finish (v : Variant) : M unit :=
  match v with
  | Central => Central_finish
  | DistMaster => DistMaster_finish
  | DistWorker => DistWorker_finish
  end.

(** [pause(); resume()], [n] times over. *)
Fixpoint pause_resume (n : nat) : M unit :=
  match n with
  | O => mret tt
  | S n' => pause;; resume;; pause_resume n'
  end.

End Controllers.

(** * The Environment Channel *)

Definition channel_vars : list string :=
  ["COV_CORE_SOURCE"; "COV_CORE_CONFIG"; "COV_CORE_DATAFILE"; "COV_CORE_BRANCH"].

Definition channel_clear (e : gmap string string) : Prop :=
  ∀ k, k ∈ channel_vars → e !! k = None.

Definition cleared_environ (e : gmap string string) : gmap string string :=
  delete "COV_CORE_BRANCH" (delete "COV_CORE_DATAFILE"
    (delete "COV_CORE_CONFIG" (delete "COV_CORE_SOURCE" e))).

Definition written_environ (host : Host) (s : CovController) (cv : Coverage)
    (e : gmap string string) : gmap string string :=
  let e1 := <["COV_CORE_SOURCE" :=
              match cov_source s with
              | None => pathsep host
              | Some src => PyStr.join (pathsep host) src
              end]> e in
  let e2 := <["COV_CORE_CONFIG" :=
              if path_exists host (abspath host (cov_config s))
              then abspath host (cov_config s) else pathsep host]> e1 in
  let e3 := <["COV_CORE_DATAFILE" := abspath host (cv_data_file cv)]> e2 in
  if cov_branch s then <["COV_CORE_BRANCH" := "enabled"]> e3 else e3.

(** * A distributed run, end to end

    The master starts and configures two nodes; each worker process starts
    with the sideband input the master wrote and the master's options,
    finishes, and hands its sideband output back; the master handles the
    two disconnects and finishes. *)

Record RunConfig := mkRunConfig {
  opt_source : option (list string);
  opt_report : list string;
  opt_config : string;
  opt_append : bool;
  opt_branch : bool;
}.

Definition controller (h : Host) (o : RunConfig) (config : option Config)
    (nodeid : string) : CovController :=
  CovController_init h (opt_source o) (opt_report o) (opt_config o)
    (opt_append o) (opt_branch o) config nodeid.

(** The master's handle on a worker running on host [h]: the gateway
    reports the remote platform and version. *)
Definition remote_node (h : Host) (gateway_id : string) (roots : list string) : Node :=
  mkNode ∅ None gateway_id (mkRInfo (sys_platform h) (sys_version_info h)) roots.

Definition set_node_workeroutput (d : gmap string string) (n : Node) : Node :=
  mkNode (node_workerinput n) (Some d) (gateway_id n) (gateway_rinfo n) (nodemanager_roots n).

Definition lift {A} (r : result A) : M A := λ p, (r, p).

(** A worker process from [start()] to [finish()]; the result is its
    sideband output. *)
Definition run_worker (h : Host) (o : RunConfig) (wi : gmap string pyval)
    (nodeid : string) (w : World) : result (gmap string string) :=
  ((DistWorker_start h;; DistWorker_finish h;; self_workeroutput)
     (mkProc (controller h o (Some (mkConfig (Some wi) (Some ∅) [])) nodeid) w)).1.

Definition distributed_run (hm hw1 hw2 : Host) (o : RunConfig) (mconfig : Config)
    (nodeid1 nodeid2 : string) (wm w1 w2 : World) : result unit * Proc :=
  (DistMaster_start hm;;
   n1 ← DistMaster_configure_node hm (remote_node hw1 nodeid1 [getcwd hm]);
   n2 ← DistMaster_configure_node hm (remote_node hw2 nodeid2 [getcwd hm]);
   out1 ← lift (run_worker hw1 o (node_workerinput n1) nodeid1 w1);
   out2 ← lift (run_worker hw2 o (node_workerinput n2) nodeid2 w2);
   DistMaster_testnodedown hm (set_node_workeroutput out1 n1);;
   DistMaster_testnodedown hm (set_node_workeroutput out2 n2);;
   DistMaster_finish)
    (mkProc (controller hm o (Some mconfig) "") wm).

(** * A sample deployment

    One master on host [A] in [/m], a worker on the same host and in the
    same directory, and a worker on host [B] in [/w2]. *)

Definition sample_abspath (cwd p : string) : string :=
  if String.prefix "/" p then p else cwd +:+ "/" +:+ p.

Definition master_host : Host :=
  mkHost "A" 4242 "/m" ":" (sample_abspath "/m")
    (λ f, bool_decide (f = "/m/.coveragerc") || bool_decide (f = ".coveragerc"))
    "linux" (mkVersionInfo 3 6 1 "final" 0)
    (λ _, 4217%N) (λ _, ".coverage") (λ _, ∅) (λ _ _, "").

Definition worker1_host : Host :=
  mkHost "A" 4250 "/m" ":" (sample_abspath "/m")
    (λ f, bool_decide (f = "/m/.coveragerc") || bool_decide (f = ".coveragerc"))
    "linux" (mkVersionInfo 3 6 1 "final" 0)
    (λ _, 1%N) (λ _, ".coverage") (λ _, ∅) (λ _ _, "").

Definition worker2_host : Host :=
  mkHost "B" 977 "/w2" ":" (sample_abspath "/w2")
    (λ _, false)
    "win32" (mkVersionInfo 2 7 15 "final" 0)
    (λ _, 2%N) (λ _, ".coverage") (λ _, ∅) (λ _ _, "x.py:1,2").

Definition fresh_world : World := mkWorld ∅ ∅ 0 [] 0.

Definition sample_workerinput : gmap string pyval :=
  <["cov_master_rsync_roots" := PList ["/m"]]>
    (<["cov_master_topdir" := PStr "/m"]>
       (<["cov_master_host" := PStr "A"]> ∅)).

Definition sample_worker (h : Host) (src : option (list string)) (branch : bool)
    (nid : string) : Proc :=
  mkProc (CovController_init h src ["term"] ".coveragerc" false branch
            (Some (mkConfig (Some sample_workerinput) (Some ∅) [])) nid)
         fresh_world.

Definition sample_master (src : option (list string)) (branch : bool) : Proc :=
  mkProc (CovController_init master_host src ["term"] ".coveragerc" false branch
            (Some (mkConfig None None [])) "")
         fresh_world.

Definition sample_central (src : option (list string)) (branch : bool) : Proc :=
  mkProc (CovController_init master_host src ["term"] ".coveragerc" false branch None "")
         fresh_world.

Definition sample_options : RunConfig :=
  mkRunConfig (Some ["/m/pkg"]) ["term"] ".coveragerc" false true.

(** A worker handle whose output carries a dataset, and one that never
    reported. *)
Definition payload_node (node_id : string) : Node :=
  mkNode ∅
    (Some (<["cov_worker_data" := "x.py:1,2"]>
             (<["cov_worker_node_id" := node_id]>
                (<["cov_worker_path" := "/w2"]> ∅))))
    node_id (mkRInfo "win32" (mkVersionInfo 2 7 15 "final" 0)) ["/m"].

Definition silent_node : Node :=
  mkNode ∅ None "gw7" (mkRInfo "win32" (mkVersionInfo 2 7 15 "final" 0)) ["/m"].

(** The sample master and the sample remote worker after [start()]. *)
Definition started_master : Proc :=
  (start master_host DistMaster (sample_master (Some ["/m/pkg"]) true)).2.

Definition started_worker : Proc :=
  (start worker2_host DistWorker
     (sample_worker worker2_host (Some ["/m/pkg"]) true "gw1")).2.

(** Unfold the monad and the primitive operations of the process. *)
Ltac munfold :=
  unfold cov_paths_set, cov_paths_append, load_or_erase, self_cov, self_workerinput,
    self_workeroutput, put_workeroutput, cov_data_write, Coverage_new, randint;
  unfold cleanup, cov_start, cov_stop, cov_erase, cov_load, cov_save,
    cov_combine, cov_data_update, cov_object, environ_set, environ_pop, str_replace,
    getitem, getattr, when, upd_self, upd_world, get_self, get_world;
  unfold mbind, M_bind, mret, M_ret, raise.

(** Look a literal key up in a chain of inserts. *)
Ltac solve_lookup :=
  repeat (rewrite lookup_insert_ne by done);
  first [apply lookup_insert_eq | apply lookup_empty].

(** * Reporting: [CovController.summary] *)

(** What one [CovController.sep] call adds to a stream, with or without a
    [sep] method of its own. *)
Definition sep_ops (with_sep : bool) (s txt : string) : list StreamOp :=
  written (sep (mkStream with_sep []) s txt).

(** Python truthiness of a list. *)
Definition truthy {A} (l : list A) : bool :=
  match l with
  | [] => false
  | _ :: _ => true
  end.

Definition failed_workers_note : string :=
  "The following workers failed to return coverage data, ensure that pytest-cov is installed on these workers."
  +:+ PyStr.nl.

Section Reporting.

(** The reporting facility [self.cov.summary(report, fail_under, stream)]
    is external: for a session, the report options, the threshold and the
    process state it says what it writes to the stream and which totals it
    returns. *)
Context {Totals FailUnder : Type}.
Context (cov_summary : nat → list string → FailUnder → World → list StreamOp * Totals).

(** [CovController.summary(cov_fail_under, stream)]; the stream is updated
    in place and handed back with the totals. *)
Definition summary (cov_fail_under : FailUnder) (stream : Stream) : M (Totals * Stream) :=
  s ← get_self;
  let stream :=
    if truthy (cov_report s) then
      if bool_decide (size (node_descs s) = 1%nat)
      then sep stream "-" ("coverage: " +:+ PyStr.join "" (elements (node_descs s)))
      else fold_left (λ st node_desc, sep st " " node_desc)
             (merge_sort String.le (elements (node_descs s)))
             (sep stream "-" "coverage")
    else stream in
  c ← self_cov "summary";
  w ← get_world;
  let (ops, totals) := cov_summary c (cov_report s) cov_fail_under w in
  let stream := mkStream (has_sep stream) (written stream ++ ops) in
  let stream :=
    if truthy (cov_report s) then
      if truthy (failed_workers s) then
        fold_left (λ st node, stream_write st (gateway_id node +:+ PyStr.nl))
          (failed_workers s)
          (stream_write (sep stream "-" "coverage: failed workers") failed_workers_note)
      else stream
    else stream in
  mret (totals, stream).

End Reporting.

(** * The master over a whole run *)

(** The orchestrator signals the disconnects one after the other. *)
Fixpoint DistMaster_testnodedown_all (host : Host) (nodes : list Node) : M unit :=
  match nodes with
  | [] => mret tt
  | node :: nodes' =>
      DistMaster_testnodedown host node;; DistMaster_testnodedown_all host nodes'
  end.

Definition node_output (node : Node) : gmap string string :=
  default ∅ (node_workeroutput node).

(** The node reported a node identifier; it also sent a dataset. *)
Definition node_reported (node : Node) : bool :=
  has_key "cov_worker_node_id" (node_output node).
Definition node_sent_data (node : Node) : bool :=
  node_reported node && has_key "cov_worker_data" (node_output node).

Definition node_desc_of (node : Node) : string :=
  get_node_desc (ri_platform (gateway_rinfo node)) (ri_version_info (gateway_rinfo node)).

(** The top directories that the nodes which sent a dataset reported. *)
Definition reported_paths (nodes : list Node) : list string :=
  omap (λ node, if node_sent_data node
                then node_output node !! "cov_worker_path" else None) nodes.

(** A session of the master is live and its source paths are pinned. *)
Definition master_ready (p : Proc) (c : nat) (l : list string) : Prop :=
  cov (self p) = Some c ∧
  (∃ cv, covs (world p) !! c = Some cv ∧ cv_paths cv !! "source" = Some l) ∧
  (c < next_cov (world p))%nat.

(** A sample report facility: one line, and the totals 100. *)
Definition sample_summary (c : nat) (report : list string) (fail_under : Z) (w : World)
    : list StreamOp * Z :=
  ([OpWrite "TOTAL 100%"], 100).

(** The block [summary] writes about the workers that failed. *)
Definition failed_block (with_sep : bool) (failed : list Node) : list StreamOp :=
  match failed with
  | [] => []
  | _ :: _ =>
      sep_ops with_sep "-" "coverage: failed workers" ++
      OpWrite failed_workers_note ::
      ((λ node, OpWrite (gateway_id node +:+ PyStr.nl)) <$> failed)
  end.

(** The sample master at the end of the sample run, and after a worker
    without the plugin has disconnected from it. *)
Definition finished_master : Proc :=
  (distributed_run master_host worker1_host worker2_host sample_options
     (mkConfig None None []) "gw0" "gw1" fresh_world fresh_world fresh_world).2.

Definition master_with_failure : Proc :=
  (DistMaster_testnodedown master_host silent_node started_master).2.

(** Strings of decimal digits. *)
Definition is_digit (c : ascii) : bool :=
  match Ascii.is_nat c with
  | Some _ => true
  | None => false
  end.

Fixpoint all_digits (s : string) : bool :=
  match s with
  | "" => true
  | String c s' => is_digit c && all_digits s'
  end.

(** More of the sample deployment: a controller after a single-process
    run, a started master without report options, nodes whose output has
    a node identifier only or lacks the top directory, a worker on host
    [B] in the master's directory, and a worker without sideband input. *)
Definition finished_central : Proc :=
  ((Central_start master_host;; Central_finish master_host) (sample_central None false)).2.

Definition quiet_master : Proc :=
  (start master_host DistMaster
     (mkProc (CovController_init master_host None [] ".coveragerc" false false
                (Some (mkConfig None None [])) "")
             fresh_world)).2.

Definition local_node : Node :=
  mkNode ∅ (Some (<["cov_worker_node_id" := "gw0"]> ∅))
    "gw0" (mkRInfo "linux" (mkVersionInfo 3 6 1 "final" 0)) ["/m"].

Definition pathless_node : Node :=
  mkNode ∅
    (Some (<["cov_worker_data" := "x.py:1,2"]> (<["cov_worker_node_id" := "gw5"]> ∅)))
    "gw5" (mkRInfo "win32" (mkVersionInfo 2 7 15 "final" 0)) ["/m"].

Definition worker3_host : Host :=
  mkHost "B" 978 "/m" ":" (sample_abspath "/m")
    (λ _, false)
    "win32" (mkVersionInfo 2 7 15 "final" 0)
    (λ _, 3%N) (λ _, ".coverage") (λ _, ∅) (λ _ _, "y.py:1").

Definition uninformed_worker : Proc :=
  mkProc (CovController_init worker2_host (Some ["/m/pkg"]) ["term"] ".coveragerc"
            false true (Some (mkConfig (Some ∅) (Some ∅) [])) "gw9")
         fresh_world.

(** Decide a closed side condition by evaluation. *)
Ltac evaluated := vm_compute; first [reflexivity | discriminate | lia].

(** A worker on the master's host and in the master's directory that runs
    another interpreter. *)
Definition worker1_py2_host : Host :=
  mkHost "A" 4251 "/m" ":" (sample_abspath "/m")
    (λ f, bool_decide (f = "/m/.coveragerc") || bool_decide (f = ".coveragerc"))
    "linux" (mkVersionInfo 2 7 15 "final" 0)
    (λ _, 1%N) (λ _, ".coverage") (λ _, ∅) (λ _ _, "").

(** * The primitives on concrete inputs *)

Example replace_leading : PyStr.replace "/m/pkg" "/m" "/w" = "/w/pkg".
Proof. reflexivity. Qed.

Example replace_empty_pattern : PyStr.replace "abc" "" "-" = "-a-b-c-".
Proof. reflexivity. Qed.

Example replace_no_overlap : PyStr.replace "aaa" "aa" "b" = "ba".
Proof. reflexivity. Qed.

Example replace_every_occurrence : PyStr.replace "/m/lib/m/pkg" "/m" "/w" = "/w/lib/w/pkg".
Proof. reflexivity. Qed.

Example join_roots : PyStr.join ":" ["/m/a"; "/m/b"; "c"] = "/m/a:/m/b:c".
Proof. reflexivity. Qed.

Example fmt_06d_pads : PyStr.fmt_06d 4217 = "004217".
Proof. vm_compute. reflexivity. Qed.

Example node_desc_linux :
  get_node_desc "linux" (mkVersionInfo 3 6 1 "final" 0) = "platform linux, python 3.6.1-final-0".
Proof. vm_compute. reflexivity. Qed.

Example sep_coverage_header :
  written (sep (mkStream false []) "-" "coverage") =
  [OpWrite ("------------------------------ coverage ------------------------------"
            +:+ PyStr.nl)].
Proof. vm_compute. reflexivity. Qed.

(** * Facts about the string primitives *)

Lemma str_app_nil (s : string) : "" +:+ s = s.
Proof. reflexivity. Qed.

Lemma str_app_cons (c : ascii) (s t : string) : String c s +:+ t = String c (s +:+ t).
Proof. reflexivity. Qed.

Lemma str_length_app (s t : string) :
  String.length (s +:+ t) = (String.length s + String.length t)%nat.
Proof.
  induction s as [|c s IH]; [reflexivity|].
  rewrite str_app_cons. cbn [String.length]. by rewrite IH.
Qed.

Lemma str_app_assoc (s t u : string) : (s +:+ t) +:+ u = s +:+ t +:+ u.
Proof.
  induction s as [|c s IH]; [reflexivity|].
  rewrite !str_app_cons. by rewrite IH.
Qed.

Lemma length_repeat (s : string) (n : nat) :
  String.length (PyStr.repeat s n) = (n * String.length s)%nat.
Proof.
  induction n as [|n IH]; [reflexivity|].
  cbn [PyStr.repeat]. rewrite str_length_app, IH. lia.
Qed.

Lemma prefix_app (old rest : string) : String.prefix old (old +:+ rest) = true.
Proof.
  induction old as [|c old IH]; [by destruct rest|].
  rewrite str_app_cons. cbn [String.prefix].
  destruct (ascii_dec c c); [exact IH|done].
Qed.

Lemma replace_go_skip (old new l rest : string) :
  PyStr.replace_go old new (String.length l) (l +:+ rest) = PyStr.replace_go old new O rest.
Proof.
  induction l as [|c l IH]; [by destruct rest|].
  rewrite str_app_cons. cbn [String.length PyStr.replace_go]. exact IH.
Qed.

(** A leading occurrence of [old] is replaced and the scan resumes after it. *)
Lemma replace_prefix (old new rest : string) :
  old ≠ "" →
  PyStr.replace (old +:+ rest) old new = new +:+ PyStr.replace rest old new.
Proof.
  intros Hne. destruct old as [|c old]; [done|].
  unfold PyStr.replace.
  pose proof (prefix_app (String c old) rest) as Hp.
  rewrite str_app_cons in *. cbn [PyStr.replace_go]. rewrite Hp.
  cbn [String.length Nat.pred]. by rewrite replace_go_skip.
Qed.

(** Where [old] does not start, the scan copies one character. *)
Lemma replace_no_prefix (old new : string) (c : ascii) (s : string) :
  old ≠ "" → String.prefix old (String c s) = false →
  PyStr.replace (String c s) old new = String c (PyStr.replace s old new).
Proof.
  intros Hne Hp. destruct old as [|c' old]; [done|].
  unfold PyStr.replace. cbn [PyStr.replace_go]. by rewrite Hp.
Qed.

(** A string in which [old] does not occur is returned as it is. *)
Lemma replace_absent (s old new : string) :
  PyStr.contains old s = false → PyStr.replace s old new = s.
Proof.
  destruct old as [|c' old].
  { destruct s; discriminate. }
  unfold PyStr.replace.
  induction s as [|c s IH]; [reflexivity|].
  cbn [PyStr.contains]. intros [Hp Hc]%orb_false_iff.
  cbn [PyStr.replace_go]. rewrite Hp. by rewrite IH.
Qed.

(** * The fallback separator line *)

(** C10. On a stream without a [sep] method and for a one-character
    separator, the line [CovController.sep] writes is the title between
    two runs of the separator; without its line feed it is
    [max 70 (len txt + 4)] long, and the right run equals the left one or
    is one longer, the latter exactly when the padding is odd. *)
Theorem sep_fallback_line (stream : Stream) (s txt : string) :
  has_sep stream = false →
  String.length s = 1%nat →
  ∃ a b : nat,
    sep stream s txt =
      stream_write stream
        (PyStr.repeat s a +:+ " " +:+ txt +:+ " " +:+ PyStr.repeat s b +:+ PyStr.nl) ∧
    String.length (PyStr.repeat s a) = a ∧
    String.length (PyStr.repeat s b) = b ∧
    String.length (PyStr.repeat s a +:+ " " +:+ txt +:+ " " +:+ PyStr.repeat s b) =
      Nat.max 70 (String.length txt + 4) ∧
    (a ≤ b ≤ a + 1)%nat ∧
    (b = (a + 1)%nat ↔ Nat.Odd (a + b)).
Proof.
  intros Hs Hlen. unfold sep. rewrite Hs.
  set (total := Z.max (70 - 2 - Z.of_nat (String.length txt)) 2).
  exists (Z.to_nat (total `div` 2)), (Z.to_nat (total `div` 2 + total `mod` 2)).
  assert (2 ≤ total) by (unfold total; lia).
  pose proof (Z.mod_pos_bound total 2 ltac:(lia)) as Hm.
  pose proof (Z.div_mod total 2 ltac:(lia)) as Hd.
  split; [reflexivity|].
  rewrite !str_length_app, !length_repeat, Hlen. cbn [String.length].
  repeat split; try lia.
  - intros Hb. exists (Z.to_nat (total `div` 2)). lia.
  - intros [k Hk]. lia.
Qed.

(** * Decimal formatting *)

Lemma pretty_N_go_length (k : nat) (x : N) (s : string) :
  (x < 10 ^ N.of_nat k)%N →
  (String.length (pretty_N_go x s) ≤ k + String.length s)%nat.
Proof.
  revert x s. induction k as [|k IH]; intros x s Hx.
  - assert (x = 0%N) as -> by (simpl in Hx; lia). rewrite pretty_N_go_0. lia.
  - destruct (decide (x = 0%N)) as [->|Hne].
    { rewrite pretty_N_go_0. lia. }
    rewrite pretty_N_go_step by lia.
    etrans; [apply IH|cbn [String.length]; lia].
    rewrite Nat2N.inj_succ, N.pow_succ_r' in Hx.
    apply N.Div0.div_lt_upper_bound. lia.
Qed.

Lemma fmt_06d_length (r : N) :
  (r ≤ 999999)%N → String.length (PyStr.fmt_06d r) = 6%nat.
Proof.
  intros Hr. unfold PyStr.fmt_06d.
  assert (String.length (pretty r) ≤ 6)%nat as Hlen.
  { unfold pretty, pretty_N. case_decide; [simpl; lia|].
    pose proof (pretty_N_go_length 6 r "") as H6. simpl in H6. apply H6. lia. }
  rewrite str_length_app, length_repeat. simpl. lia.
Qed.

Lemma bind_run {A B} (m : M A) (f : A → M B) (p : Proc) :
  (m ≫= f) p = match m p with
               | (Ok a, p') => f a p'
               | (Raise e, p') => (Raise e, p')
               end.
Proof. reflexivity. Qed.

Lemma bind_ok {A B} (m : M A) (f : A → M B) (p p' : Proc) (a : A) :
  m p = (Ok a, p') → (m ≫= f) p = f a p'.
Proof. intros H. by rewrite bind_run, H. Qed.

Lemma mapM_pure {A B} (g : A → B) (l : list A) (p : Proc) :
  mapM (λ x q, (Ok (g x), q)) l p = (Ok (map g l), p).
Proof.
  induction l as [|x l IH]; [reflexivity|].
  cbn [mapM map]. rewrite bind_run. rewrite (bind_ok _ _ _ _ _ IH). reflexivity.
Qed.

Lemma mapM_state {A B} (f : A → M B) (l : list A) (p : Proc) :
  (∀ x q, (f x q).2 = q) → (mapM f l p).2 = p.
Proof.
  intros Hf. induction l as [|x l IH]; [reflexivity|].
  cbn [mapM]. rewrite bind_run.
  specialize (Hf x p). destruct (f x p) as [[y|e] q]; simpl in Hf; subst q; [|done].
  rewrite bind_run. destruct (mapM f l p) as [[ys|e] q]; simpl in IH; by subst q.
Qed.

Section ControllerFacts.
Context (host : Host).

Lemma unset_env_run (p : Proc) :
  unset_env p = (Ok tt, mkProc (self p) (set_environ (cleared_environ (environ (world p))) (world p))).
Proof. reflexivity. Qed.

Lemma set_env_run (p : Proc) (c : nat) (cv : Coverage) :
  cov (self p) = Some c → covs (world p) !! c = Some cv →
  set_env host p =
    (Ok tt, mkProc (self p)
              (set_environ (written_environ host (self p) cv (environ (world p))) (world p))).
Proof.
  intros Hc Hcv. destruct p as [s w]. simpl in *.
  unfold set_env, written_environ. munfold. simpl.
  destruct (cov_source s), (path_exists host _), (cov_branch s);
    simpl; rewrite Hc; simpl; rewrite Hcv; reflexivity.
Qed.

Lemma cleared_environ_clear (e : gmap string string) : channel_clear (cleared_environ e).
Proof.
  intros k Hk. unfold cleared_environ, channel_vars in *.
  repeat (apply elem_of_cons in Hk as [->|Hk]; [by simplify_map_eq|]).
  by apply elem_of_nil in Hk.
Qed.

Lemma Central_finish_environ (p : Proc) :
  environ (world (Central_finish host p).2) = cleared_environ (environ (world p)).
Proof.
  destruct p as [s w]. unfold Central_finish, unset_env. munfold. simpl.
  destruct (cov s); simpl; [|reflexivity].
  destruct (combining_cov s); reflexivity.
Qed.

Lemma DistWorker_finish_environ (p : Proc) :
  environ (world (DistWorker_finish host p).2) = cleared_environ (environ (world p)).
Proof.
  destruct p as [s w]. unfold DistWorker_finish, unset_env. munfold. simpl.
  destruct (cov s); simpl; [|reflexivity].
  destruct (is_collocated s) as [[]|]; simpl; [| |reflexivity].
  all: destruct (config s) as [cfg|] eqn:Hcfg; simpl; rewrite ?Hcfg; simpl;
    [|reflexivity].
  all: destruct (workeroutput cfg); simpl; rewrite ?Hcfg; reflexivity.
Qed.

Lemma DistMaster_finish_environ (p : Proc) :
  environ (world (DistMaster_finish p).2) = environ (world p).
Proof.
  destruct p as [s w]. unfold DistMaster_finish. munfold. simpl.
  destruct (cov s); simpl; [|reflexivity].
  destruct (combining_cov s); reflexivity.
Qed.

Lemma pause_run (p : Proc) (c : nat) :
  cov (self p) = Some c →
  pause p =
    (Ok tt, mkProc (self p)
              (set_environ (cleared_environ (environ (world p)))
                 (log_call (CallStop c) (world p)))).
Proof.
  intros Hc. destruct p as [s w]. simpl in *.
  unfold pause, unset_env. munfold. simpl. rewrite Hc. reflexivity.
Qed.

Lemma pause_ok_inv (p p' : Proc) :
  pause p = (Ok tt, p') → ∃ c, cov (self p) = Some c.
Proof.
  destruct p as [s w]. unfold pause, unset_env. munfold. simpl.
  destruct (cov s) as [c|]; [eauto|discriminate].
Qed.

(** C3, amended. [Central.finish] and [DistWorker.finish] remove the four
    variables of the Environment Channel from the process environment,
    whether or not the rest of [finish] then completes, and so does a
    [pause()] that returns, for every variant. ([DistMaster.finish] leaves
    the environment as it is, see [DistMaster_finish_environ].) *)
Theorem finish_deactivates_channel (v : Variant) (p : Proc) :
  v ≠ DistMaster →
  channel_clear (environ (world (finish host v p).2)) ∧
  (∀ p', pause p = (Ok tt, p') → channel_clear (environ (world p'))).
Proof.
  intros Hv. split.
  - destruct v; [|done|]; simpl.
    + rewrite Central_finish_environ. apply cleared_environ_clear.
    + rewrite DistWorker_finish_environ. apply cleared_environ_clear.
  - intros p' Hp. destruct (pause_ok_inv _ _ Hp) as [c Hc].
    rewrite (pause_run _ _ Hc) in Hp. injection Hp as <-. simpl.
    apply cleared_environ_clear.
Qed.

(** C6. [set_env()] writes COV_CORE_SOURCE (the source roots joined by the
    path separator, or a lone separator for [None]), COV_CORE_CONFIG (the
    absolute config-file path when that file exists, a lone separator
    otherwise, and no error), COV_CORE_DATAFILE (the absolute data-file
    path), and writes COV_CORE_BRANCH, as ['enabled'], exactly when branch
    coverage is on: in an environment without COV_CORE_BRANCH, as
    [unset_env] leaves it, the variable is there afterwards if and only if
    branch coverage is on. Nothing else in the environment changes. *)
Theorem set_env_writes (p : Proc) (c : nat) (cv : Coverage) :
  cov (self p) = Some c → covs (world p) !! c = Some cv →
  ∃ p', set_env host p = (Ok tt, p') ∧
    self p' = self p ∧
    environ (world p') !! "COV_CORE_SOURCE" =
      Some (match cov_source (self p) with
            | None => pathsep host
            | Some src => PyStr.join (pathsep host) src
            end) ∧
    environ (world p') !! "COV_CORE_CONFIG" =
      Some (if path_exists host (abspath host (cov_config (self p)))
            then abspath host (cov_config (self p))
            else pathsep host) ∧
    environ (world p') !! "COV_CORE_DATAFILE" = Some (abspath host (cv_data_file cv)) ∧
    environ (world p') !! "COV_CORE_BRANCH" =
      (if cov_branch (self p) then Some "enabled"
       else environ (world p) !! "COV_CORE_BRANCH") ∧
    (environ (world p) !! "COV_CORE_BRANCH" = None →
     (environ (world p') !! "COV_CORE_BRANCH" = Some "enabled" ↔ cov_branch (self p) = true) ∧
     (environ (world p') !! "COV_CORE_BRANCH" = None ↔ cov_branch (self p) = false)) ∧
    (∀ k, k ∉ channel_vars → environ (world p') !! k = environ (world p) !! k).
Proof.
  intros Hc Hcv. eexists. split; [by apply (set_env_run p c cv)|].
  simpl. unfold written_environ.
  split; [done|].
  split; [destruct (cov_branch (self p)); by simplify_map_eq|].
  split; [destruct (cov_branch (self p)); by simplify_map_eq|].
  split; [destruct (cov_branch (self p)); by simplify_map_eq|].
  split; [destruct (cov_branch (self p)); by simplify_map_eq|].
  split.
  - intros Hnone. destruct (cov_branch (self p)).
    + rewrite lookup_insert_eq. by repeat split.
    + rewrite !lookup_insert_ne by done. rewrite Hnone. by repeat split.
  - intros k Hk. unfold channel_vars in Hk.
    rewrite !not_elem_of_cons in Hk. destruct Hk as (?&?&?&?&_).
    destruct (cov_branch (self p)); by simplify_map_eq.
Qed.

(** C4. A disconnecting worker whose output has no [cov_worker_node_id] is
    appended to [failed_workers] and nothing else changes: the engine is
    not called, no session is created, no source root is registered and
    the node descriptors stay as they are. *)
Theorem testnodedown_failed_worker (p : Proc) (node : Node) :
  default ∅ (node_workeroutput node) !! "cov_worker_node_id" = None →
  ∃ p', DistMaster_testnodedown host node p = (Ok tt, p') ∧
    self p' = set_failed_workers (failed_workers (self p) ++ [node]) (self p) ∧
    failed_workers (self p') = failed_workers (self p) ++ [node] ∧
    node_descs (self p') = node_descs (self p) ∧
    world p' = world p.
Proof.
  intros Hid. unfold DistMaster_testnodedown, has_key.
  rewrite Hid. rewrite bool_decide_false by (by intros [? ?]).
  simpl. eexists. split; [reflexivity|]. done.
Qed.

Lemma DistWorker_finish_run (p : Proc) (c : nat) (b : bool) (cfg : Config)
    (out : gmap string string) :
  cov (self p) = Some c →
  is_collocated (self p) = Some b →
  config (self p) = Some cfg →
  workeroutput cfg = Some out →
  let w := world p in
  DistWorker_finish host p =
    (Ok tt,
     if b then
       mkProc (set_config
                 (Some (set_workeroutput
                          (<["cov_worker_node_id" := nodeid (self p)]> out) cfg))
                 (self p))
              (mkWorld (cleared_environ (environ w)) (covs w) (next_cov w)
                 (calls w ++ [CallStop c; CallSave c]) (rand_pos w))
     else
       mkProc (set_config
                 (Some (set_workeroutput
                          (<["cov_worker_data" :=
                               data_dump host
                                 (calls w ++ [CallStop c; CallCombine c; CallSave c]) c]>
                             (<["cov_worker_node_id" := nodeid (self p)]>
                                (<["cov_worker_path" := topdir (self p)]> out))) cfg))
                 (self p))
              (mkWorld (cleared_environ (environ w)) (covs w) (next_cov w)
                 (calls w ++ [CallStop c; CallCombine c; CallSave c; CallDataWrite c])
                 (rand_pos w))).
Proof.
  intros Hc Hb Hcfg Hout. destruct p as [s w]. simpl in *.
  unfold DistWorker_finish, unset_env. munfold. simpl.
  rewrite Hc. simpl. rewrite Hb. simpl.
  destruct b; simpl; rewrite Hcfg; simpl; rewrite Hout; simpl; rewrite ?Hcfg; simpl.
  all: unfold log_call, set_environ; simpl; rewrite <- !app_assoc; reflexivity.
Qed.

(** C5. The worker's [finish()]: when collocated it stops and saves without
    combining and writes the node identifier alone into its output
    mapping; when not collocated it stops, combines, saves, serialises the
    dataset and writes the node identifier, its own top directory and the
    serialised buffer. *)
Theorem DistWorker_finish_reports (p : Proc) (c : nat) (b : bool) (cfg : Config)
    (out : gmap string string) :
  cov (self p) = Some c →
  is_collocated (self p) = Some b →
  config (self p) = Some cfg →
  workeroutput cfg = Some out →
  ∃ p' out', DistWorker_finish host p = (Ok tt, p') ∧
    config (self p') ≫= workeroutput = Some out' ∧
    if b then
      calls (world p') = calls (world p) ++ [CallStop c; CallSave c] ∧
      out' = <["cov_worker_node_id" := nodeid (self p)]> out ∧
      out' !! "cov_worker_path" = out !! "cov_worker_path" ∧
      out' !! "cov_worker_data" = out !! "cov_worker_data"
    else
      calls (world p') =
        calls (world p) ++ [CallStop c; CallCombine c; CallSave c; CallDataWrite c] ∧
      out' = <["cov_worker_data" :=
                 data_dump host (calls (world p) ++ [CallStop c; CallCombine c; CallSave c]) c]>
               (<["cov_worker_node_id" := nodeid (self p)]>
                  (<["cov_worker_path" := topdir (self p)]> out)).
Proof.
  intros Hc Hb Hcfg Hout.
  pose proof (DistWorker_finish_run p c b cfg out Hc Hb Hcfg Hout) as Hrun.
  destruct b; simpl in Hrun; eexists _, _; (split; [exact Hrun|]); simpl;
    (split; [reflexivity|]).
  - by simplify_map_eq.
  - done.
Qed.

(** The source roots and the config-file path as a non-collocated worker
    rewrites them. *)
Lemma DistWorker_start_run (p : Proc) (cfg : Config) (wi : gmap string pyval)
    (mh : pyval) (mt : string) :
  config (self p) = Some cfg →
  workerinput cfg = Some wi →
  wi !! "cov_master_host" = Some mh →
  wi !! "cov_master_topdir" = Some (PStr mt) →
  let b := pyval_eq_str (gethostname host) mh && bool_decide (topdir (self p) = mt) in
  ∃ p' cv, DistWorker_start host p = (Ok tt, p') ∧
    is_collocated (self p') = Some b ∧
    cov_source (self p') =
      (if b then cov_source (self p)
       else map (λ source, PyStr.replace source mt (topdir (self p))) <$> cov_source (self p)) ∧
    cov_config (self p') =
      (if b then cov_config (self p)
       else PyStr.replace (cov_config (self p)) mt (topdir (self p))) ∧
    cov (self p') = Some (next_cov (world p)) ∧
    covs (world p') !! next_cov (world p) = Some cv ∧
    environ (world p') = written_environ host (self p') cv (environ (world p)) ∧
    cov_branch (self p') = cov_branch (self p) ∧
    config (self p') = config (self p) ∧
    nodeid (self p') = nodeid (self p) ∧
    topdir (self p') = topdir (self p).
Proof.
  intros Hcfg Hwi Hmh Hmt b. destruct p as [s w]. simpl in *.
  unfold DistWorker_start.
  do 3 (rewrite bind_run; simpl).
  unfold self_workerinput. munfold. simpl. rewrite Hcfg. simpl. rewrite Hwi. simpl.
  rewrite Hmh. simpl.
  rewrite Hmt. simpl.
  destruct (pyval_eq_str (gethostname host) mh) eqn:E1; simpl;
    [destruct (bool_decide (topdir s = mt)) eqn:E2; simpl|];
    subst b; rewrite ?E1, ?E2; simpl.
  all: destruct (cov_source s) as [src|] eqn:Hsrc; simpl;
    rewrite ?mapM_pure; simpl.
  all: destruct (cov_append s); simpl.
  all: erewrite set_env_run; [|reflexivity|apply lookup_insert_eq].
  all: eexists _, _; split; [reflexivity|]; simpl; rewrite ?Hsrc.
  all: by repeat split; try apply lookup_insert_eq.
Qed.

Lemma written_cleared_written (s : CovController) (cv : Coverage)
    (e : gmap string string) :
  (cov_branch s = false → e !! "COV_CORE_BRANCH" = None) →
  written_environ host s cv (cleared_environ (written_environ host s cv e)) =
  written_environ host s cv e.
Proof.
  intros Hbr. apply map_eq. intros k.
  unfold written_environ, cleared_environ.
  destruct (cov_branch s).
  - destruct (decide (k = "COV_CORE_BRANCH")) as [->|]; [by simplify_map_eq|].
    destruct (decide (k = "COV_CORE_DATAFILE")) as [->|]; [by simplify_map_eq|].
    destruct (decide (k = "COV_CORE_CONFIG")) as [->|]; [by simplify_map_eq|].
    destruct (decide (k = "COV_CORE_SOURCE")) as [->|]; by simplify_map_eq.
  - specialize (Hbr eq_refl).
    destruct (decide (k = "COV_CORE_BRANCH")) as [->|]; [by simplify_map_eq|].
    destruct (decide (k = "COV_CORE_DATAFILE")) as [->|]; [by simplify_map_eq|].
    destruct (decide (k = "COV_CORE_CONFIG")) as [->|]; [by simplify_map_eq|].
    destruct (decide (k = "COV_CORE_SOURCE")) as [->|]; by simplify_map_eq.
Qed.

Lemma resume_run (p : Proc) (c : nat) (cv : Coverage) :
  cov (self p) = Some c → covs (world p) !! c = Some cv →
  resume host p =
    (Ok tt, mkProc (self p)
              (set_environ (written_environ host (self p) cv (environ (world p)))
                 (log_call (CallStart c) (world p)))).
Proof.
  intros Hc Hcv. destruct p as [s w]. simpl in *.
  unfold resume. rewrite bind_run. unfold self_cov at 1. munfold. simpl.
  rewrite Hc. simpl.
  by erewrite set_env_run.
Qed.

(** Any number of [pause(); resume()] rounds on a controller whose channel
    holds what [set_env] wrote leaves the environment as it was. *)
Lemma pause_resume_environ (n : nat) (p : Proc) (c : nat) (cv : Coverage)
    (e : gmap string string) :
  cov (self p) = Some c → covs (world p) !! c = Some cv →
  environ (world p) = written_environ host (self p) cv e →
  (cov_branch (self p) = false → e !! "COV_CORE_BRANCH" = None) →
  ∃ p', pause_resume host n p = (Ok tt, p') ∧
    self p' = self p ∧
    covs (world p') = covs (world p) ∧
    environ (world p') = environ (world p).
Proof.
  revert p. induction n as [|n IH]; intros p Hc Hcv He Hbr.
  { exists p. done. }
  cbn [pause_resume].
  erewrite bind_ok; [|by apply pause_run].
  erewrite bind_ok; [|by apply resume_run].
  edestruct IH as (p' & Hrun & Hself & Hcovs & Henv); [..|exists p'; split; [exact Hrun|]].
  - exact Hc.
  - exact Hcv.
  - simpl. rewrite He. by rewrite written_cleared_written.
  - exact Hbr.
  - simpl in *. rewrite Hself, Hcovs, Henv. by rewrite He, written_cleared_written.
Qed.

Lemma Central_start_run (p : Proc) :
  ∃ p' cv, Central_start host p = (Ok tt, p') ∧
    cov (self p') = Some (next_cov (world p)) ∧
    combining_cov (self p') = Some (S (next_cov (world p))) ∧
    covs (world p') !! next_cov (world p) = Some cv ∧
    environ (world p') = written_environ host (self p') cv (environ (world p)) ∧
    cov_branch (self p') = cov_branch (self p) ∧
    node_descs (self p') = node_descs (self p).
Proof.
  destruct p as [s w]. unfold Central_start. munfold. simpl.
  rewrite lookup_insert_eq. simpl.
  destruct (cov_append s); simpl.
  all: erewrite set_env_run;
    [|reflexivity|simpl; rewrite lookup_insert_ne by lia; apply lookup_insert_eq].
  all: eexists _, _; split; [reflexivity|]; simpl.
  all: repeat split; rewrite lookup_insert_ne by lia; apply lookup_insert_eq.
Qed.

(** A worker's [start()] that returns has read both sideband entries, and
    the master's top directory was a string. *)
Lemma DistWorker_start_inv (p p' : Proc) :
  DistWorker_start host p = (Ok tt, p') →
  ∃ cfg wi mh mt,
    config (self p) = Some cfg ∧ workerinput cfg = Some wi ∧
    wi !! "cov_master_host" = Some mh ∧ wi !! "cov_master_topdir" = Some (PStr mt).
Proof.
  destruct p as [s w]. unfold DistWorker_start.
  do 3 (rewrite bind_run; simpl).
  unfold self_workerinput at 1. unfold getattr, getitem, get_self at 1.
  unfold mbind at 1 2 3, M_bind, mret, M_ret, raise. simpl.
  destruct (config s) as [cfg|] eqn:Hcfg; simpl; [|discriminate].
  destruct (workerinput cfg) as [wi|] eqn:Hwi; simpl; [|discriminate].
  destruct (wi !! "cov_master_host") as [mh|] eqn:Hmh; simpl; [|discriminate].
  destruct (wi !! "cov_master_topdir") as [[mt|l]|] eqn:Hmt.
  { intros _. by eexists _, _, _, _. }
  all: munfold; simpl.
  all: destruct (pyval_eq_str (gethostname host) mh); simpl.
  all: try discriminate.
  all: destruct (cov_source s) as [src|]; simpl; try discriminate.
  all: match goal with
       | |- context [mapM ?f ?l ?q] => destruct (mapM f l q) as [[ys|err] q0]
       end; simpl; discriminate.
Qed.

(** C1. A starting worker is collocated exactly when its own host name
    equals the master's reported host name and its own top directory
    equals the master's reported top directory. *)
Theorem DistWorker_start_collocation (p : Proc) (cfg : Config)
    (wi : gmap string pyval) (mh mt : string) :
  config (self p) = Some cfg →
  workerinput cfg = Some wi →
  wi !! "cov_master_host" = Some (PStr mh) →
  wi !! "cov_master_topdir" = Some (PStr mt) →
  ∃ p' b, DistWorker_start host p = (Ok tt, p') ∧
    is_collocated (self p') = Some b ∧
    (b = true ↔ gethostname host = mh ∧ topdir (self p) = mt).
Proof.
  intros Hcfg Hwi Hmh Hmt.
  destruct (DistWorker_start_run p cfg wi (PStr mh) mt Hcfg Hwi Hmh Hmt)
    as (p' & cv & Hrun & Hcol & _).
  eexists _, _. split; [exact Hrun|]. split; [exact Hcol|].
  simpl. rewrite andb_true_iff, !bool_decide_eq_true. done.
Qed.

(** C2, amended. A non-collocated worker rewrites every source root and
    the config-file path with [str.replace]: every occurrence of the
    master's top directory, scanning from the left, becomes the worker's
    top directory. A path in which the master's top directory does not
    occur is unchanged, and the master's top directory followed by a
    remainder that does not contain it becomes the worker's top directory
    followed by that remainder. *)
Theorem DistWorker_start_rewrites (p : Proc) (cfg : Config)
    (wi : gmap string pyval) (mh mt : string) :
  config (self p) = Some cfg →
  workerinput cfg = Some wi →
  wi !! "cov_master_host" = Some (PStr mh) →
  wi !! "cov_master_topdir" = Some (PStr mt) →
  ¬ (gethostname host = mh ∧ topdir (self p) = mt) →
  ∃ p', DistWorker_start host p = (Ok tt, p') ∧
    is_collocated (self p') = Some false ∧
    cov_source (self p') =
      map (λ source, PyStr.replace source mt (topdir (self p))) <$> cov_source (self p) ∧
    cov_config (self p') = PyStr.replace (cov_config (self p)) mt (topdir (self p)) ∧
    (∀ path, PyStr.contains mt path = false →
       PyStr.replace path mt (topdir (self p)) = path) ∧
    (∀ rest, mt ≠ "" → PyStr.contains mt rest = false →
       PyStr.replace (mt +:+ rest) mt (topdir (self p)) = topdir (self p) +:+ rest).
Proof.
  intros Hcfg Hwi Hmh Hmt Hncol.
  destruct (DistWorker_start_run p cfg wi (PStr mh) mt Hcfg Hwi Hmh Hmt)
    as (p' & cv & Hrun & Hcol & Hsrc & Hconf & _).
  assert (pyval_eq_str (gethostname host) (PStr mh)
          && bool_decide (topdir (self p) = mt) = false) as Hb.
  { apply not_true_is_false. simpl.
    rewrite andb_true_iff, !bool_decide_eq_true. exact Hncol. }
  rewrite Hb in Hcol, Hsrc, Hconf.
  exists p'. repeat split; try done.
  - intros path Hpath. by apply replace_absent.
  - intros rest Hne Hrest. rewrite replace_prefix by done.
    by rewrite replace_absent.
Qed.

Lemma DistMaster_start_environ (p : Proc) :
  environ (world (DistMaster_start host p).2) = environ (world p).
Proof.
  destruct p as [s w]. unfold DistMaster_start. munfold. simpl.
  destruct (bool_decide (cov_config s ≠ "") && path_exists host (cov_config s)); simpl.
  - destruct (config s) as [cfg|]; simpl; [|reflexivity].
    rewrite lookup_insert_eq. simpl.
    destruct (cov_append s); simpl.
    all: rewrite lookup_insert_ne by lia; rewrite lookup_insert_eq; reflexivity.
  - rewrite lookup_insert_eq. simpl.
    destruct (cov_append s); simpl.
    all: rewrite lookup_insert_ne by lia; rewrite lookup_insert_eq; reflexivity.
Qed.

(** What a returning [start()] of [Central] or [DistWorker] leaves behind:
    a live session and the channel as [set_env] wrote it. *)
Lemma started_channel (v : Variant) (p0 p1 : Proc) :
  v ≠ DistMaster →
  start host v p0 = (Ok tt, p1) →
  ∃ c cv, cov (self p1) = Some c ∧ covs (world p1) !! c = Some cv ∧
    environ (world p1) = written_environ host (self p1) cv (environ (world p0)) ∧
    cov_branch (self p1) = cov_branch (self p0).
Proof.
  intros Hv Hstart. destruct v; [|done|]; simpl in Hstart.
  - destruct (Central_start_run p0) as (p' & cv & Hrun & Hc & _ & Hcv & Henv & Hbr & _).
    rewrite Hrun in Hstart. injection Hstart as <-. eauto 10.
  - destruct (DistWorker_start_inv _ _ Hstart) as (cfg & wi & mh & mt & H1 & H2 & H3 & H4).
    destruct (DistWorker_start_run p0 cfg wi mh mt H1 H2 H3 H4)
      as (p' & cv & Hrun & _ & _ & _ & Hc & Hcv & Henv & Hbr & _).
    rewrite Hrun in Hstart. injection Hstart as <-. eauto 10.
Qed.

(** C7, amended. After a [start()] of [Central] or [DistWorker] that
    found no COV_CORE_BRANCH left over in the environment (or with branch
    coverage on), any number of [pause(); resume()] rounds returns and
    leaves the whole environment, hence the four variables of the channel,
    exactly as [start()] left it. *)
Theorem pause_resume_restores_channel (v : Variant) (p0 p1 : Proc) (n : nat) :
  v ≠ DistMaster →
  start host v p0 = (Ok tt, p1) →
  (cov_branch (self p0) = false → environ (world p0) !! "COV_CORE_BRANCH" = None) →
  ∃ pn, pause_resume host n p1 = (Ok tt, pn) ∧
    environ (world pn) = environ (world p1) ∧
    self pn = self p1.
Proof.
  intros Hv Hstart Hbr.
  destruct (started_channel v p0 p1 Hv Hstart) as (c & cv & Hc & Hcv & Henv & Hb).
  destruct (pause_resume_environ n p1 c cv (environ (world p0)) Hc Hcv Henv)
    as (pn & Hrun & Hself & _ & He).
  { rewrite Hb. exact Hbr. }
  exists pn. done.
Qed.

Lemma DistMaster_start_run (p : Proc) (cfg : Config) :
  config (self p) = Some cfg →
  ∃ p' cv, DistMaster_start host p = (Ok tt, p') ∧
    cov (self p') = Some (next_cov (world p)) ∧
    combining_cov (self p') = Some (S (next_cov (world p))) ∧
    covs (world p') !! next_cov (world p) = Some cv ∧
    cv_paths cv !! "source" = Some [topdir (self p)] ∧
    next_cov (world p') = S (S (next_cov (world p))) ∧
    node_descs (self p') = node_descs (self p) ∧
    failed_workers (self p') = failed_workers (self p) ∧
    topdir (self p') = topdir (self p).
Proof.
  intros Hcfg. destruct p as [s w]. simpl in *.
  unfold DistMaster_start. munfold. simpl.
  destruct (bool_decide (cov_config s ≠ "") && path_exists host (cov_config s)); simpl;
    rewrite ?Hcfg; simpl.
  all: rewrite lookup_insert_eq; simpl.
  all: destruct (cov_append s); simpl.
  all: rewrite lookup_insert_ne by lia; rewrite lookup_insert_eq; simpl.
  all: eexists _, _; split; [reflexivity|]; simpl.
  all: repeat split; try apply lookup_insert_eq.
Qed.

(** The disconnect of a worker that reported its node identifier and no
    dataset: only its node descriptor is recorded. *)
Lemma DistMaster_testnodedown_collocated (p : Proc) (node : Node)
    (out : gmap string string) (node_id : string) :
  node_workeroutput node = Some out →
  out !! "cov_worker_node_id" = Some node_id →
  out !! "cov_worker_data" = None →
  DistMaster_testnodedown host node p =
    (Ok tt,
     mkProc (set_node_descs
               ({[get_node_desc (ri_platform (gateway_rinfo node))
                    (ri_version_info (gateway_rinfo node))]} ∪ node_descs (self p))
               (self p))
            (world p)).
Proof.
  intros Hout Hid Hdata. unfold DistMaster_testnodedown, has_key.
  rewrite Hout. simpl. rewrite Hid, Hdata.
  rewrite bool_decide_true by eauto.
  rewrite bool_decide_false by (by intros [? ?]).
  reflexivity.
Qed.

(** The disconnect of a worker that reported a dataset. *)
Lemma DistMaster_testnodedown_payload (p : Proc) (node : Node)
    (out : gmap string string) (node_id data path : string)
    (c : nat) (cv : Coverage) (l : list string) :
  node_workeroutput node = Some out →
  out !! "cov_worker_node_id" = Some node_id →
  out !! "cov_worker_data" = Some data →
  out !! "cov_worker_path" = Some path →
  cov (self p) = Some c →
  covs (world p) !! c = Some cv →
  cv_paths cv !! "source" = Some l →
  (c < next_cov (world p))%nat →
  let r := (0 + random_stream host (rand_pos (world p)) `mod` (999999 - 0 + 1))%N in
  let n := next_cov (world p) in
  ∃ p', DistMaster_testnodedown host node p = (Ok tt, p') ∧
    self p' = set_node_descs
                ({[get_node_desc (ri_platform (gateway_rinfo node))
                     (ri_version_info (gateway_rinfo node))]} ∪ node_descs (self p))
                (self p) ∧
    covs (world p') =
      <[c := set_cov_paths (<["source" := l ++ [path]]> (cv_paths cv)) cv]>
        (<[n := mkCoverage (cov_source (self p)) (cov_branch (self p))
                  (SuffixStr (gethostname host +:+ "." +:+ pretty (getpid host) +:+ "." +:+
                              PyStr.fmt_06d r +:+ "." +:+ node_id))
                  (cov_config (self p)) (rc_data_file host (cov_config (self p)))
                  (rc_paths host (cov_config (self p)))]> (covs (world p))) ∧
    next_cov (world p') = S n ∧
    calls (world p') =
      calls (world p) ++
        [CallNew n; CallStart n; CallDataUpdate n data; CallStop n; CallSave n] ∧
    environ (world p') = environ (world p).
Proof.
  intros Hout Hid Hdata Hpath Hc Hcv Hl Hlt r n. destruct p as [s w]. simpl in *.
  unfold DistMaster_testnodedown, has_key.
  rewrite Hout. simpl. rewrite Hid, Hdata.
  rewrite !bool_decide_true by eauto. simpl.
  munfold. simpl. rewrite Hid, Hdata, Hpath. simpl. rewrite Hc. simpl.
  rewrite lookup_insert_ne by lia. rewrite Hcv. simpl. rewrite Hl. simpl.
  eexists. split; [reflexivity|]. simpl.
  repeat split. by rewrite <- !app_assoc.
Qed.

Lemma DistMaster_finish_run (p : Proc) (c cc : nat) :
  cov (self p) = Some c →
  combining_cov (self p) = Some cc →
  ∃ p', DistMaster_finish p = (Ok tt, p') ∧
    node_descs (self p') = node_descs (self p) ∧
    failed_workers (self p') = failed_workers (self p) ∧
    cov (self p') = Some cc.
Proof.
  intros Hc Hcc. destruct p as [s w]. simpl in *.
  unfold DistMaster_finish. munfold. simpl. rewrite Hc. simpl. rewrite Hcc. simpl.
  eexists. split; [reflexivity|]. done.
Qed.

(** C8. The suffix the master allocates for a worker's payload is the
    master's host name, its process id, a random integer of [0..999999]
    zero-padded to six characters and the worker's node identifier, joined
    by dots; handled from the same state, hence with the same host, pid
    and random draw, two workers with distinct node identifiers get
    distinct suffixes. *)
Theorem testnodedown_suffix (p : Proc) (node1 node2 : Node)
    (out1 out2 : gmap string string) (id1 id2 data1 data2 path1 path2 : string)
    (c : nat) (cv : Coverage) (l : list string) :
  node_workeroutput node1 = Some out1 →
  out1 !! "cov_worker_node_id" = Some id1 →
  out1 !! "cov_worker_data" = Some data1 →
  out1 !! "cov_worker_path" = Some path1 →
  node_workeroutput node2 = Some out2 →
  out2 !! "cov_worker_node_id" = Some id2 →
  out2 !! "cov_worker_data" = Some data2 →
  out2 !! "cov_worker_path" = Some path2 →
  cov (self p) = Some c →
  covs (world p) !! c = Some cv →
  cv_paths cv !! "source" = Some l →
  (c < next_cov (world p))%nat →
  id1 ≠ id2 →
  ∃ p1 p2 (r : N) (zeros : nat) (sfx1 sfx2 : string),
    DistMaster_testnodedown host node1 p = (Ok tt, p1) ∧
    DistMaster_testnodedown host node2 p = (Ok tt, p2) ∧
    cv_data_suffix <$> covs (world p1) !! next_cov (world p) = Some (SuffixStr sfx1) ∧
    cv_data_suffix <$> covs (world p2) !! next_cov (world p) = Some (SuffixStr sfx2) ∧
    (r ≤ 999999)%N ∧
    PyStr.fmt_06d r = PyStr.repeat "0" zeros +:+ pretty r ∧
    String.length (PyStr.fmt_06d r) = 6%nat ∧
    sfx1 = gethostname host +:+ "." +:+ pretty (getpid host) +:+ "." +:+
           PyStr.fmt_06d r +:+ "." +:+ id1 ∧
    sfx2 = gethostname host +:+ "." +:+ pretty (getpid host) +:+ "." +:+
           PyStr.fmt_06d r +:+ "." +:+ id2 ∧
    sfx1 ≠ sfx2.
Proof.
  intros Ho1 Hi1 Hd1 Hp1 Ho2 Hi2 Hd2 Hp2 Hc Hcv Hl Hlt Hne.
  destruct (DistMaster_testnodedown_payload p node1 out1 id1 data1 path1 c cv l)
    as (p1 & Hrun1 & _ & Hcovs1 & _); try done.
  destruct (DistMaster_testnodedown_payload p node2 out2 id2 data2 path2 c cv l)
    as (p2 & Hrun2 & _ & Hcovs2 & _); try done.
  set (r := (0 + random_stream host (rand_pos (world p)) `mod` (999999 - 0 + 1))%N) in *.
  assert (r ≤ 999999)%N as Hr.
  { subst r. pose proof (N.mod_upper_bound (random_stream host (rand_pos (world p)))
                           (999999 - 0 + 1)%N). lia. }
  exists p1, p2, r, (6 - String.length (pretty r))%nat. eexists _, _.
  split; [exact Hrun1|]. split; [exact Hrun2|].
  split; [rewrite Hcovs1, lookup_insert_ne by lia; rewrite lookup_insert_eq; reflexivity|].
  split; [rewrite Hcovs2, lookup_insert_ne by lia; rewrite lookup_insert_eq; reflexivity|].
  split; [exact Hr|]. split; [reflexivity|].
  split; [by apply fmt_06d_length|].
  split; [reflexivity|]. split; [reflexivity|].
  intros Heq. apply Hne. by repeat apply String.app_inj in Heq.
Qed.

(** What a worker hands back to the master. *)
Lemma run_worker_output (o : RunConfig) (wi : gmap string pyval)
    (mh : pyval) (mt nodeid : string) (w : World) :
  wi !! "cov_master_host" = Some mh →
  wi !! "cov_master_topdir" = Some (PStr mt) →
  ∃ data,
    run_worker host o wi nodeid w =
      Ok (if pyval_eq_str (gethostname host) mh && bool_decide (getcwd host = mt)
          then <["cov_worker_node_id" := nodeid]> ∅
          else <["cov_worker_data" := data]>
                 (<["cov_worker_node_id" := nodeid]>
                    (<["cov_worker_path" := getcwd host]> ∅))).
Proof.
  intros Hmh Hmt. unfold run_worker.
  set (p0 := mkProc _ w).
  destruct (DistWorker_start_run p0 _ wi mh mt eq_refl eq_refl Hmh Hmt)
    as (p1 & cv & Hrun & Hcol & _ & _ & Hc & _ & _ & _ & Hcfg & Hnid & Htop).
  simpl in Hcol, Hcfg, Hnid, Htop.
  erewrite bind_ok; [|exact Hrun].
  erewrite bind_ok; [|by eapply DistWorker_finish_run].
  rewrite Hnid, Htop.
  destruct (pyval_eq_str (gethostname host) mh && bool_decide (getcwd host = mt)).
  - exists "". reflexivity.
  - eexists. reflexivity.
Qed.

End ControllerFacts.

(** C9, amended. One master, a worker on the master's host and in the
    master's directory, and a worker on another host: the run returns, no
    worker has failed, [finish()] has made the combining session the
    active one, and the master's node descriptors are exactly the two
    workers' descriptors, each recorded when that worker disconnected. The
    master's own platform descriptor is among them only if a worker has
    it: when the collocated worker's descriptor is the master's and the
    remote worker's differs, the set is the master's platform descriptor
    and the remote worker's, two entries. *)
Theorem distributed_run_worker_descs (hm hw1 hw2 : Host) (o : RunConfig)
    (mconfig : Config) (nodeid1 nodeid2 : string) (wm w1 w2 : World) :
  gethostname hw1 = gethostname hm →
  getcwd hw1 = getcwd hm →
  gethostname hw2 ≠ gethostname hm →
  let master_desc := get_node_desc (sys_platform hm) (sys_version_info hm) in
  let desc1 := get_node_desc (sys_platform hw1) (sys_version_info hw1) in
  let desc2 := get_node_desc (sys_platform hw2) (sys_version_info hw2) in
  ∃ p', distributed_run hm hw1 hw2 o mconfig nodeid1 nodeid2 wm w1 w2 = (Ok tt, p') ∧
    node_descs (self p') = {[desc1; desc2]} ∧
    (master_desc ∈ node_descs (self p') ↔ desc1 = master_desc ∨ desc2 = master_desc) ∧
    (desc1 = master_desc → desc2 ≠ master_desc →
     node_descs (self p') = {[master_desc; desc2]} ∧
     size (node_descs (self p')) = 2%nat) ∧
    failed_workers (self p') = [] ∧
    cov (self p') = Some (S (next_cov wm)).
Proof.
  intros Hh1 Hd1 Hh2 master_desc desc1 desc2. unfold distributed_run.
  set (p0 := mkProc _ wm).
  destruct (DistMaster_start_run hm p0 mconfig eq_refl)
    as (p1 & cv & Hstart & Hc & Hcc & Hcv & Hsrc & Hnext & Hnd & Hfw & Htop).
  simpl in Hc, Hcc, Hcv, Hnext, Hnd, Hfw, Htop, Hsrc.
  erewrite bind_ok; [|exact Hstart].
  erewrite bind_ok; [|reflexivity].
  erewrite bind_ok; [|reflexivity].
  cbn [node_workerinput set_node_workerinput remote_node nodemanager_roots].
  rewrite Htop.
  edestruct (run_worker_output hw1 o) as [data1 Hw1];
    [| |erewrite bind_ok; [|unfold lift; rewrite Hw1; reflexivity]].
  { solve_lookup. }
  { solve_lookup. }
  edestruct (run_worker_output hw2 o) as [data2 Hw2];
    [| |erewrite bind_ok; [|unfold lift; rewrite Hw2; reflexivity]].
  { solve_lookup. }
  { solve_lookup. }
  simpl pyval_eq_str.
  rewrite Hh1, Hd1.
  rewrite (bool_decide_true (gethostname hm = gethostname hm)) by done.
  rewrite (bool_decide_true (getcwd hm = getcwd hm)) by done.
  rewrite (bool_decide_false (gethostname hw2 = gethostname hm)) by done.
  simpl andb. cbv iota.
  erewrite bind_ok;
    [|eapply DistMaster_testnodedown_collocated; [reflexivity|solve_lookup..]].
  edestruct (DistMaster_testnodedown_payload hm) as (p3 & Hdown & Hself & _ & Hnext3 & _);
    [..|erewrite bind_ok; [|exact Hdown]].
  { reflexivity. }
  { solve_lookup. }
  { solve_lookup. }
  { solve_lookup. }
  { simpl. exact Hc. }
  { simpl. exact Hcv. }
  { exact Hsrc. }
  { simpl. rewrite Hnext. lia. }
  destruct (DistMaster_finish_run p3 (next_cov wm) (S (next_cov wm)))
    as (p4 & Hfin & Hnd4 & Hfw4 & Hcov4).
  { rewrite Hself. simpl. exact Hc. }
  { rewrite Hself. simpl. exact Hcc. }
  exists p4. split; [exact Hfin|].
  assert (node_descs (self p4) = {[desc1; desc2]}) as Hfinal.
  { rewrite Hnd4, Hself. simpl. rewrite Hnd.
    rewrite (right_id_L ∅ (∪)). apply (comm_L (∪)). }
  split; [exact Hfinal|].
  split; [|split; [|split; [rewrite Hfw4, Hself; exact Hfw|exact Hcov4]]].
  all: clearbody master_desc desc1 desc2.
  - rewrite Hfinal, elem_of_union, !elem_of_singleton.
    split; (intros [Heq|Heq]; [left|right]; by rewrite Heq).
  - intros Hsame Hdiff. rewrite Hfinal, Hsame. split; [reflexivity|].
    rewrite size_union.
    + by rewrite !size_singleton.
    + apply disjoint_singleton_l. rewrite elem_of_singleton. congruence.
Qed.


(** C9, as stated, fails: the master's own run contributes no
    descriptor. With the collocated worker on another interpreter than
    the master's, the run ends with the two workers' descriptors, and the
    master's platform descriptor is not among them. *)
Lemma master_run_contributes_no_descriptor :
  ∃ p', distributed_run master_host worker1_py2_host worker2_host sample_options
          (mkConfig None None []) "gw0" "gw1" fresh_world fresh_world fresh_world =
          (Ok tt, p') ∧
    node_descs (self p') =
      {["platform linux, python 2.7.15-final-0"; "platform win32, python 2.7.15-final-0"]} ∧
    size (node_descs (self p')) = 2%nat ∧
    get_node_desc (sys_platform master_host) (sys_version_info master_host) =
      "platform linux, python 3.6.1-final-0" ∧
    get_node_desc (sys_platform master_host) (sys_version_info master_host)
      ∉ node_descs (self p').
Proof.
  eexists. split; [vm_compute; reflexivity|].
  assert (node_descs (self (distributed_run master_host worker1_py2_host worker2_host
                              sample_options (mkConfig None None []) "gw0" "gw1"
                              fresh_world fresh_world fresh_world).2) =
          {["platform linux, python 2.7.15-final-0";
            "platform win32, python 2.7.15-final-0"]}) as Hdescs
    by (vm_compute; reflexivity).
  split; [exact Hdescs|]. split; [vm_compute; reflexivity|].
  split; [vm_compute; reflexivity|].
  assert (get_node_desc (sys_platform master_host) (sys_version_info master_host) =
          "platform linux, python 3.6.1-final-0") as -> by (vm_compute; reflexivity).
  change (node_descs (self _)) with
    (node_descs (self (distributed_run master_host worker1_py2_host worker2_host
                         sample_options (mkConfig None None []) "gw0" "gw1"
                         fresh_world fresh_world fresh_world).2)).
  rewrite Hdescs, elem_of_union, !elem_of_singleton.
  intros [?|?]; discriminate.
Qed.

(** C2, as stated, fails: [/x/m/pkg] does not start with the master's top
    directory [/m], and the worker in [/w2] still rewrites it. *)
Lemma rewrite_reaches_beyond_prefix :
  ∃ p', DistWorker_start worker2_host
          (sample_worker worker2_host (Some ["/x/m/pkg"]) true "gw1") = (Ok tt, p') ∧
    is_collocated (self p') = Some false ∧
    String.prefix "/m" "/x/m/pkg" = false ∧
    cov_source (self p') = Some ["/x/w2/pkg"] ∧
    cov_source (self p') ≠ Some ["/x/m/pkg"].
Proof.
  eexists. split; [vm_compute; reflexivity|].
  repeat split; discriminate.
Qed.


(** C3, as stated, fails for the master: after [start()], a
    [pause()]/[resume()] round and [finish()], COV_CORE_SOURCE is still in
    the environment. *)
Lemma master_finish_keeps_channel :
  ∃ p', (start master_host DistMaster;; pause_resume master_host 1;;
         finish master_host DistMaster) (sample_master None false) = (Ok tt, p') ∧
    environ (world p') !! "COV_CORE_SOURCE" = Some ":" ∧
    ¬ channel_clear (environ (world p')).
Proof.
  eexists. split; [vm_compute; reflexivity|].
  split; [reflexivity|].
  intros Hclear. specialize (Hclear "COV_CORE_SOURCE"). 
  discriminate Hclear. unfold channel_vars. set_solver.
Qed.

(** C7, as stated, fails for the master: [start()] leaves the channel
    empty and a [pause()]/[resume()] round fills it. *)
Lemma master_resume_fills_channel :
  ∃ p1 p3, start master_host DistMaster (sample_master None false) = (Ok tt, p1) ∧
    pause_resume master_host 1 p1 = (Ok tt, p3) ∧
    environ (world p1) !! "COV_CORE_SOURCE" = None ∧
    environ (world p3) !! "COV_CORE_SOURCE" = Some ":" ∧
    environ (world p3) ≠ environ (world p1).
Proof.
  eexists _, _. split; [vm_compute; reflexivity|].
  split; [vm_compute; reflexivity|].
  split; [reflexivity|]. split; [reflexivity|].
  intros Heq. apply (f_equal (λ e, e !! "COV_CORE_SOURCE")) in Heq. discriminate Heq.
Qed.

(** * The theorems at the sample deployment *)

Lemma DistWorker_start_collocation_witness :
  ∃ p' b, DistWorker_start worker2_host
            (sample_worker worker2_host (Some ["/m/pkg"]) true "gw1") = (Ok tt, p') ∧
    is_collocated (self p') = Some b ∧
    (b = true ↔ gethostname worker2_host = "A" ∧
                topdir (self (sample_worker worker2_host (Some ["/m/pkg"]) true "gw1")) = "/m").
Proof.
  apply (DistWorker_start_collocation worker2_host
           (sample_worker worker2_host (Some ["/m/pkg"]) true "gw1")
           (mkConfig (Some sample_workerinput) (Some ∅) []) sample_workerinput "A" "/m");
    reflexivity.
Defined.

Lemma DistWorker_start_rewrites_witness :
  ∃ p', DistWorker_start worker2_host
          (sample_worker worker2_host (Some ["/m/pkg"]) true "gw1") = (Ok tt, p') ∧
    cov_source (self p') = Some ["/w2/pkg"] ∧
    cov_config (self p') = ".coveragerc".
Proof.
  destruct (DistWorker_start_rewrites worker2_host
              (sample_worker worker2_host (Some ["/m/pkg"]) true "gw1")
              (mkConfig (Some sample_workerinput) (Some ∅) []) sample_workerinput "A" "/m")
    as (p' & Hrun & _ & Hsrc & Hcfg & _); try reflexivity.
  - vm_compute. intros [H _]. discriminate H.
  - exists p'. split; [exact Hrun|]. split; [exact Hsrc|exact Hcfg].
Defined.

Lemma finish_deactivates_channel_witness :
  channel_clear (environ (world (finish worker2_host DistWorker started_worker).2)).
Proof.
  destruct (finish_deactivates_channel worker2_host DistWorker started_worker)
    as [Hclear _]; [discriminate|exact Hclear].
Defined.

Lemma set_env_writes_witness :
  ∃ p', set_env worker2_host started_worker = (Ok tt, p') ∧
    environ (world p') !! "COV_CORE_SOURCE" = Some "/w2/pkg" ∧
    environ (world p') !! "COV_CORE_CONFIG" = Some ":" ∧
    environ (world p') !! "COV_CORE_DATAFILE" = Some "/w2/.coverage" ∧
    environ (world p') !! "COV_CORE_BRANCH" = Some "enabled".
Proof.
  destruct (set_env_writes worker2_host started_worker 0%nat
              (mkCoverage (Some ["/w2/pkg"]) true SuffixTrue ".coveragerc" ".coverage" ∅))
    as (p' & Hrun & _ & Hs & Hc & Hd & Hb & _ & _); [reflexivity..|].
  exists p'. split; [exact Hrun|]. split; [exact Hs|]. split; [exact Hc|].
  split; [exact Hd|exact Hb].
Defined.

Lemma testnodedown_failed_worker_witness :
  ∃ p', DistMaster_testnodedown master_host silent_node started_master = (Ok tt, p') ∧
    failed_workers (self p') = [silent_node] ∧
    node_descs (self p') = ∅ ∧
    world p' = world started_master.
Proof.
  destruct (testnodedown_failed_worker master_host started_master silent_node)
    as (p' & Hrun & _ & Hf & Hn & Hw); [reflexivity|].
  exists p'. split; [exact Hrun|]. split; [exact Hf|]. split; [exact Hn|exact Hw].
Defined.

Lemma DistWorker_finish_reports_witness :
  ∃ p' out', DistWorker_finish worker2_host started_worker = (Ok tt, p') ∧
    config (self p') ≫= workeroutput = Some out' ∧
    calls (world p') =
      calls (world started_worker) ++
        [CallStop 0; CallCombine 0; CallSave 0; CallDataWrite 0]%nat ∧
    out' = <["cov_worker_data" := "x.py:1,2"]>
             (<["cov_worker_node_id" := "gw1"]> (<["cov_worker_path" := "/w2"]> ∅)).
Proof.
  apply (DistWorker_finish_reports worker2_host started_worker 0%nat false
           (mkConfig (Some sample_workerinput) (Some ∅) []) ∅); reflexivity.
Defined.

Lemma pause_resume_restores_channel_witness :
  ∃ pn, pause_resume master_host 3 (start master_host Central (sample_central None false)).2 =
          (Ok tt, pn) ∧
    environ (world pn) =
      environ (world (start master_host Central (sample_central None false)).2) ∧
    self pn = self (start master_host Central (sample_central None false)).2.
Proof.
  apply (pause_resume_restores_channel master_host Central (sample_central None false)
           (start master_host Central (sample_central None false)).2 3).
  - discriminate.
  - vm_compute. reflexivity.
  - reflexivity.
Defined.

Lemma sep_fallback_line_witness :
  ∃ a b : nat,
    sep (mkStream false []) "-" "coverage" =
      stream_write (mkStream false [])
        (PyStr.repeat "-" a +:+ " " +:+ "coverage" +:+ " " +:+ PyStr.repeat "-" b +:+ PyStr.nl) ∧
    String.length (PyStr.repeat "-" a) = a ∧
    String.length (PyStr.repeat "-" b) = b ∧
    String.length (PyStr.repeat "-" a +:+ " " +:+ "coverage" +:+ " " +:+ PyStr.repeat "-" b) =
      Nat.max 70 (String.length "coverage" + 4) ∧
    (a ≤ b ≤ a + 1)%nat ∧
    (b = (a + 1)%nat ↔ Nat.Odd (a + b)).
Proof.
  apply (sep_fallback_line (mkStream false []) "-" "coverage"); reflexivity.
Defined.

Lemma distributed_run_worker_descs_witness :
  ∃ p', distributed_run master_host worker1_host worker2_host sample_options
          (mkConfig None None []) "gw0" "gw1" fresh_world fresh_world fresh_world = (Ok tt, p') ∧
    node_descs (self p') =
      {[get_node_desc (sys_platform master_host) (sys_version_info master_host);
        get_node_desc (sys_platform worker2_host) (sys_version_info worker2_host)]} ∧
    size (node_descs (self p')) = 2%nat ∧
    failed_workers (self p') = [] ∧
    cov (self p') = Some 1%nat.
Proof.
  destruct (distributed_run_worker_descs master_host worker1_host worker2_host
              sample_options (mkConfig None None []) "gw0" "gw1"
              fresh_world fresh_world fresh_world)
    as (p' & Hrun & _ & _ & Hscenario & Hfailed & Hcov).
  - reflexivity.
  - reflexivity.
  - vm_compute. discriminate.
  - destruct Hscenario as [Hdescs Hsize].
    + reflexivity.
    + vm_compute. discriminate.
    + exists p'. split; [exact Hrun|]. split; [exact Hdescs|].
      split; [exact Hsize|]. split; [exact Hfailed|exact Hcov].
Defined.

Lemma testnodedown_suffix_witness :
  ∃ p1 p2 (r : N) (zeros : nat) (sfx1 sfx2 : string),
    DistMaster_testnodedown master_host (payload_node "gw1") started_master = (Ok tt, p1) ∧
    DistMaster_testnodedown master_host (payload_node "gw2") started_master = (Ok tt, p2) ∧
    cv_data_suffix <$> covs (world p1) !! next_cov (world started_master) =
      Some (SuffixStr sfx1) ∧
    cv_data_suffix <$> covs (world p2) !! next_cov (world started_master) =
      Some (SuffixStr sfx2) ∧
    (r ≤ 999999)%N ∧
    PyStr.fmt_06d r = PyStr.repeat "0" zeros +:+ pretty r ∧
    String.length (PyStr.fmt_06d r) = 6%nat ∧
    sfx1 = gethostname master_host +:+ "." +:+ pretty (getpid master_host) +:+ "." +:+
           PyStr.fmt_06d r +:+ "." +:+ "gw1" ∧
    sfx2 = gethostname master_host +:+ "." +:+ pretty (getpid master_host) +:+ "." +:+
           PyStr.fmt_06d r +:+ "." +:+ "gw2" ∧
    sfx1 ≠ sfx2.
Proof.
  apply (testnodedown_suffix master_host started_master
           (payload_node "gw1") (payload_node "gw2")
           (<["cov_worker_data" := "x.py:1,2"]>
              (<["cov_worker_node_id" := "gw1"]> (<["cov_worker_path" := "/w2"]> ∅)))
           (<["cov_worker_data" := "x.py:1,2"]>
              (<["cov_worker_node_id" := "gw2"]> (<["cov_worker_path" := "/w2"]> ∅)))
           "gw1" "gw2" "x.py:1,2" "x.py:1,2" "/w2" "/w2" 0%nat
           (mkCoverage (Some ["/m/pkg"]) true SuffixNone ".coveragerc" ".coverage"
              (<["source" := ["/m"]]> ∅))
           ["/m"]).
  all: try reflexivity.
  - vm_compute. lia.
  - discriminate.
Defined.

Example payload_suffix :
  cv_data_suffix <$>
    covs (world (DistMaster_testnodedown master_host (payload_node "gw1") started_master).2)
      !! 2%nat =
  Some (SuffixStr "A.4242.004217.gw1").
Proof. vm_compute. reflexivity. Qed.

(** * Reporting *)

Lemma sep_written (st : Stream) (s txt : string) :
  sep st s txt = mkStream (has_sep st) (written st ++ sep_ops (has_sep st) s txt).
Proof.
  destruct st as [[] out]; reflexivity.
Qed.

Lemma fold_sep_written (st : Stream) (l : list string) :
  fold_left (λ st node_desc, sep st " " node_desc) l st =
  mkStream (has_sep st) (written st ++ concat (sep_ops (has_sep st) " " <$> l)).
Proof.
  revert st. induction l as [|d l IH]; intros st; simpl.
  - rewrite app_nil_r. by destruct st.
  - rewrite IH, sep_written. simpl. by rewrite <- app_assoc.
Qed.

Lemma fold_write_written (st : Stream) (l : list Node) :
  fold_left (λ st node, stream_write st (gateway_id node +:+ PyStr.nl)) l st =
  mkStream (has_sep st)
    (written st ++ ((λ node, OpWrite (gateway_id node +:+ PyStr.nl)) <$> l)).
Proof.
  revert st. induction l as [|n l IH]; intros st; simpl.
  - rewrite app_nil_r. by destruct st.
  - rewrite IH. unfold stream_write. simpl. by rewrite <- app_assoc.
Qed.

Section ReportingFacts.
Context {Totals FailUnder : Type}.
Context (cov_summary : nat → list string → FailUnder → World → list StreamOp * Totals).

(** The header [summary] writes before the report, and the block on failed
    workers it writes after it. *)
Lemma summary_run (fail_under : FailUnder) (stream : Stream) (p : Proc) (c : nat) :
  cov (self p) = Some c →
  let s := self p in
  let h := has_sep stream in
  let header :=
    if truthy (cov_report s) then
      if bool_decide (size (node_descs s) = 1%nat)
      then sep_ops h "-" ("coverage: " +:+ PyStr.join "" (elements (node_descs s)))
      else sep_ops h "-" "coverage" ++
           concat (sep_ops h " " <$> merge_sort String.le (elements (node_descs s)))
    else [] in
  let failed :=
    if truthy (cov_report s) && truthy (failed_workers s) then
      sep_ops h "-" "coverage: failed workers" ++
      OpWrite failed_workers_note ::
      ((λ node, OpWrite (gateway_id node +:+ PyStr.nl)) <$> failed_workers s)
    else [] in
  summary cov_summary fail_under stream p =
    (Ok ((cov_summary c (cov_report s) fail_under (world p)).2,
         mkStream h (written stream ++ header ++
                     (cov_summary c (cov_report s) fail_under (world p)).1 ++ failed)),
     p).
Proof.
  intros Hc. destruct p as [s w]. simpl in *.
  unfold summary. munfold. simpl. rewrite Hc. simpl.
  destruct (cov_summary c (cov_report s) fail_under w) as [ops totals] eqn:Hsum. simpl.
  destruct (truthy (cov_report s)); simpl.
  - destruct (bool_decide (size (node_descs s) = 1%nat)); simpl.
    all: rewrite ?fold_sep_written, sep_written; simpl.
    all: destruct (truthy (failed_workers s)); simpl.
    all: rewrite ?fold_write_written; unfold stream_write; rewrite ?sep_written; simpl.
    all: rewrite ?app_nil_r; do 3 f_equal.
    all: repeat rewrite <- app_assoc; reflexivity.
  - rewrite app_nil_r. reflexivity.
Qed.

Lemma truthy_true {A} (l : list A) : l ≠ [] → truthy l = true.
Proof. by destruct l. Qed.

(** X1. With report options and a number of node descriptors other than
    one, [summary] writes the header [coverage] and then one separator
    line per descriptor: in ascending order, each descriptor of the set
    once and nothing else; the report and the failed-workers block follow. *)
Theorem summary_lists_descriptors (fail_under : FailUnder) (stream : Stream)
    (p : Proc) (c : nat) :
  cov (self p) = Some c →
  cov_report (self p) ≠ [] →
  size (node_descs (self p)) ≠ 1%nat →
  ∃ totals stream' descs,
    summary cov_summary fail_under stream p = (Ok (totals, stream'), p) ∧
    written stream' =
      written stream ++
      sep_ops (has_sep stream) "-" "coverage" ++
      concat (sep_ops (has_sep stream) " " <$> descs) ++
      (cov_summary c (cov_report (self p)) fail_under (world p)).1 ++
      failed_block (has_sep stream) (failed_workers (self p)) ∧
    Sorted String.le descs ∧
    NoDup descs ∧
    (∀ d, d ∈ descs ↔ d ∈ node_descs (self p)).
Proof.
  intros Hc Hrep Hsize.
  eexists _, _, (merge_sort String.le (elements (node_descs (self p)))).
  split; [by apply summary_run|]. simpl.
  rewrite (truthy_true _ Hrep), bool_decide_false by done. simpl.
  split; [|split; [|split]].
  - rewrite <- !app_assoc. do 4 f_equal. by destruct (failed_workers (self p)).
  - apply (Sorted_merge_sort String.le).
  - rewrite merge_sort_Permutation. apply NoDup_elements.
  - intros d. rewrite merge_sort_Permutation. apply elem_of_elements.
Qed.

(** X2. With report options and exactly one node descriptor, the header is
    the single line [coverage: <descriptor>]; no line per descriptor is
    written. *)
Theorem summary_single_descriptor (fail_under : FailUnder) (stream : Stream)
    (p : Proc) (c : nat) (d : string) :
  cov (self p) = Some c →
  cov_report (self p) ≠ [] →
  node_descs (self p) = {[d]} →
  ∃ totals stream',
    summary cov_summary fail_under stream p = (Ok (totals, stream'), p) ∧
    written stream' =
      written stream ++
      sep_ops (has_sep stream) "-" ("coverage: " +:+ d) ++
      (cov_summary c (cov_report (self p)) fail_under (world p)).1 ++
      failed_block (has_sep stream) (failed_workers (self p)).
Proof.
  intros Hc Hrep Hd.
  eexists _, _. split; [by apply summary_run|]. simpl.
  rewrite (truthy_true _ Hrep), Hd, size_singleton, elements_singleton. simpl.
  do 3 f_equal. by destruct (failed_workers (self p)).
Qed.

(** X3. Without report options [summary] writes nothing of its own, whatever
    the node descriptors and the failed workers are: the stream receives the
    report facility's output only, and the facility's totals are returned. *)
Theorem summary_without_report (fail_under : FailUnder) (stream : Stream)
    (p : Proc) (c : nat) :
  cov (self p) = Some c →
  cov_report (self p) = [] →
  summary cov_summary fail_under stream p =
    (Ok ((cov_summary c [] fail_under (world p)).2,
         mkStream (has_sep stream)
           (written stream ++ (cov_summary c [] fail_under (world p)).1)),
     p).
Proof.
  intros Hc Hrep. rewrite (summary_run fail_under stream p c Hc). simpl.
  rewrite Hrep. simpl. by rewrite app_nil_r.
Qed.

(** X4. A worker that disconnects without a node identifier is named in the
    next summary: with report options, the stream ends with the
    failed-workers header, the note, and one line per failed worker, the
    last of them this worker's gateway id. *)
Theorem failed_worker_is_reported (host : Host) (fail_under : FailUnder)
    (stream : Stream) (p : Proc) (node : Node) (c : nat) :
  cov (self p) = Some c →
  cov_report (self p) ≠ [] →
  node_output node !! "cov_worker_node_id" = None →
  ∃ p' totals stream' before,
    DistMaster_testnodedown host node p = (Ok tt, p') ∧
    summary cov_summary fail_under stream p' = (Ok (totals, stream'), p') ∧
    written stream' =
      before ++
      sep_ops (has_sep stream) "-" "coverage: failed workers" ++
      OpWrite failed_workers_note ::
      ((λ n, OpWrite (gateway_id n +:+ PyStr.nl)) <$> failed_workers (self p)) ++
      [OpWrite (gateway_id node +:+ PyStr.nl)].
Proof.
  intros Hc Hrep Hid.
  assert (DistMaster_testnodedown host node p =
          (Ok tt, mkProc (set_failed_workers (failed_workers (self p) ++ [node]) (self p))
                         (world p))) as Hdown.
  { unfold DistMaster_testnodedown, has_key. fold (node_output node).
    rewrite Hid. by rewrite bool_decide_false by (by intros [? ?]). }
  pose proof (summary_run fail_under stream _ c
                (Hc : cov (self (mkProc (set_failed_workers
                        (failed_workers (self p) ++ [node]) (self p)) (world p))) = Some c))
    as Hsum.
  simpl in Hsum. rewrite (truthy_true _ Hrep) in Hsum.
  assert (truthy (failed_workers (self p) ++ [node]) = true) as Hfailed
    by (by destruct (failed_workers (self p))).
  rewrite Hfailed in Hsum. simpl in Hsum.
  eexists _, _, _, _.
  split; [exact Hdown|]. split; [exact Hsum|]. simpl.
  match goal with
  | |- written stream ++ ?hd ++ ?ops ++ _ = _ =>
      instantiate (1 := written stream ++ hd ++ ops)
  end.
  rewrite fmap_app. simpl.
  repeat rewrite <- app_assoc. simpl. reflexivity.
Qed.

End ReportingFacts.

(** * The master over a whole run *)

Section MasterRun.
Context (host : Host).

Lemma master_ready_next (p : Proc) (c : nat) (l : list string) :
  master_ready p c l → (c < next_cov (world p))%nat.
Proof. by intros (_ & _ & ?). Qed.

(** One disconnect, in each of its three cases. *)
Lemma DistMaster_testnodedown_step (p : Proc) (node : Node) (c : nat) (l : list string) :
  master_ready p c l →
  (node_sent_data node = true → is_Some (node_output node !! "cov_worker_path")) →
  ∃ p', DistMaster_testnodedown host node p = (Ok tt, p') ∧
    failed_workers (self p') =
      failed_workers (self p) ++ (if node_reported node then [] else [node]) ∧
    node_descs (self p') =
      (if node_reported node then {[node_desc_of node]} else ∅) ∪ node_descs (self p) ∧
    master_ready p' c (l ++ reported_paths [node]) ∧
    next_cov (world p') =
      (next_cov (world p) + (if node_sent_data node then 1 else 0))%nat ∧
    environ (world p') = environ (world p) ∧
    combining_cov (self p') = combining_cov (self p) ∧
    (∀ k, k ≠ c → (k < next_cov (world p))%nat →
          covs (world p') !! k = covs (world p) !! k).
Proof.
  intros (Hc & (cv & Hcv & Hl) & Hlt) Hwf.
  assert (node_output node = default ∅ (node_workeroutput node)) as Hno by done.
  destruct (node_output node !! "cov_worker_node_id") as [node_id|] eqn:Hid.
  - assert (node_reported node = true) as Hrep.
    { unfold node_reported, has_key. rewrite Hid. done. }
    destruct (node_output node !! "cov_worker_data") as [data|] eqn:Hdata.
    + assert (node_sent_data node = true) as Hsent.
      { unfold node_sent_data. rewrite Hrep. unfold has_key. rewrite Hdata. done. }
      destruct (Hwf Hsent) as [path Hpath].
      assert (reported_paths [node] = [path]) as Hpaths.
      { unfold reported_paths. simpl. by rewrite Hsent, Hpath. }
      rewrite Hrep, Hsent, Hpaths.
      destruct (node_workeroutput node) as [out|] eqn:Hout; simpl in Hno;
        rewrite Hno in Hid, Hdata, Hpath; [|done].
      destruct (DistMaster_testnodedown_payload host p node _ node_id data path c cv l Hout)
        as (p' & Hrun & Hself & Hcovs & Hnext & _ & Henv); try done.
      exists p'. split; [exact Hrun|]. rewrite Hself, Hnext, Henv. simpl.
      split; [by rewrite app_nil_r|]. split; [done|].
      split; [|split; [lia|split; [done|split; [done|]]]].
      * split; [by rewrite Hself|]. split; [|lia].
        rewrite Hcovs. eexists. split; [apply lookup_insert_eq|]. simpl.
        apply lookup_insert_eq.
      * intros k Hk Hklt. rewrite Hcovs, !lookup_insert_ne by lia. done.
    + assert (node_sent_data node = false) as Hsent.
      { unfold node_sent_data. rewrite Hrep. unfold has_key. rewrite Hdata. done. }
      assert (reported_paths [node] = []) as Hpaths.
      { unfold reported_paths. simpl. by rewrite Hsent. }
      rewrite Hrep, Hsent, Hpaths.
      destruct (node_workeroutput node) as [out|] eqn:Hout; simpl in Hno;
        rewrite Hno in Hid, Hdata; [|done].
      rewrite (DistMaster_testnodedown_collocated host p node _ node_id Hout Hid Hdata).
      eexists. split; [reflexivity|]. simpl. rewrite !app_nil_r.
      split; [done|]. split; [done|]. split; [|split; [lia|done]].
      split; [exact Hc|]. split; [eauto|simpl; lia].
  - assert (node_reported node = false) as Hrep.
    { unfold node_reported, has_key. rewrite Hid. done. }
    assert (node_sent_data node = false) as Hsent.
    { unfold node_sent_data. by rewrite Hrep. }
    assert (reported_paths [node] = []) as Hpaths.
    { unfold reported_paths. simpl. by rewrite Hsent. }
    rewrite Hrep, Hsent, Hpaths.
    unfold DistMaster_testnodedown, has_key. rewrite <- Hno, Hid.
    rewrite (bool_decide_false (is_Some None)) by (by intros [? ?]). simpl.
    eexists. split; [reflexivity|]. simpl. rewrite app_nil_r.
    split; [done|]. split; [by rewrite (left_id_L ∅ (∪))|]. split; [|split; [lia|done]].
    split; [exact Hc|]. split; [eauto|simpl; lia].
Qed.

Lemma DistMaster_testnodedown_all_run (nodes : list Node) (p : Proc) (c : nat)
    (l : list string) :
  master_ready p c l →
  Forall (λ node, node_sent_data node = true →
                  is_Some (node_output node !! "cov_worker_path")) nodes →
  ∃ p', DistMaster_testnodedown_all host nodes p = (Ok tt, p') ∧
    failed_workers (self p') =
      failed_workers (self p) ++ filter (λ node, node_reported node = false) nodes ∧
    node_descs (self p') =
      list_to_set (node_desc_of <$> filter (λ node, node_reported node = true) nodes)
      ∪ node_descs (self p) ∧
    master_ready p' c (l ++ reported_paths nodes) ∧
    next_cov (world p') =
      (next_cov (world p) +
       length (filter (λ node, node_sent_data node = true) nodes))%nat ∧
    environ (world p') = environ (world p) ∧
    combining_cov (self p') = combining_cov (self p) ∧
    (∀ k, k ≠ c → (k < next_cov (world p))%nat →
          covs (world p') !! k = covs (world p) !! k).
Proof.
  revert p l. induction nodes as [|node nodes IH]; intros p l Hready Hwf.
  { exists p. split; [reflexivity|]. simpl.
    rewrite !app_nil_r, (left_id_L ∅ (∪)). repeat split; try done; try lia.
    all: apply Hready. }
  apply Forall_cons in Hwf as [Hnode Hwf].
  destruct (DistMaster_testnodedown_step p node c l Hready Hnode)
    as (p1 & Hrun1 & Hf1 & Hd1 & Hready1 & Hn1 & He1 & Hc1 & Hk1).
  destruct (IH p1 _ Hready1 Hwf)
    as (p2 & Hrun2 & Hf2 & Hd2 & Hready2 & Hn2 & He2 & Hc2 & Hk2).
  exists p2. cbn [DistMaster_testnodedown_all].
  split; [by rewrite (bind_ok _ _ _ _ _ Hrun1)|].
  rewrite Hf2, Hd2, Hn2, He2, Hc2, Hf1, Hd1, Hn1, He1, Hc1.
  rewrite !filter_cons.
  assert (reported_paths (node :: nodes) = reported_paths [node] ++ reported_paths nodes)
    as Hpaths.
  { unfold reported_paths. simpl. by destruct (node_sent_data node), (_ !! _). }
  rewrite Hpaths, app_assoc.
  split; [|split; [|split; [exact Hready2|split; [|split; [done|split; [done|]]]]]].
  - destruct (node_reported node) eqn:E; case_decide; try done; simpl.
    + by rewrite app_nil_r.
    + by rewrite <- app_assoc.
  - destruct (node_reported node) eqn:E; case_decide; try done; simpl.
    + rewrite (assoc_L (∪)). f_equal. apply (comm_L (∪)).
    + by rewrite (left_id_L ∅ (∪)).
  - destruct (node_sent_data node) eqn:E; case_decide; try done; simpl; lia.
  - intros k Hk Hlt. rewrite Hk2, Hk1; [done..|lia].
Qed.

(** X5. Handling the disconnects of any list of nodes (a node that sent
    a dataset also sent its top directory) returns, and sorts the nodes in
    two: those without a node identifier are appended to [failed_workers]
    in order, the others contribute their descriptor to [node_descs], so
    every node is accounted for in exactly one of the two ways. One
    session is created per dataset, the reported top directories are
    appended to the source paths of the master's own session, and the
    environment, the combining session and every other session are left as
    they were. *)
Theorem testnodedown_all_partition (nodes : list Node) (p : Proc) (c : nat)
    (l : list string) :
  master_ready p c l →
  Forall (λ node, node_sent_data node = true →
                  is_Some (node_output node !! "cov_worker_path")) nodes →
  ∃ p', DistMaster_testnodedown_all host nodes p = (Ok tt, p') ∧
    failed_workers (self p') =
      failed_workers (self p) ++ filter (λ node, node_reported node = false) nodes ∧
    node_descs (self p') =
      list_to_set (node_desc_of <$> filter (λ node, node_reported node = true) nodes)
      ∪ node_descs (self p) ∧
    (∀ node, node ∈ nodes →
       (node_reported node = false ∧ node ∈ failed_workers (self p')) ∨
       (node_reported node = true ∧ node_desc_of node ∈ node_descs (self p'))) ∧
    master_ready p' c (l ++ reported_paths nodes) ∧
    next_cov (world p') =
      (next_cov (world p) +
       length (filter (λ node, node_sent_data node = true) nodes))%nat ∧
    environ (world p') = environ (world p) ∧
    combining_cov (self p') = combining_cov (self p) ∧
    (∀ k, k ≠ c → (k < next_cov (world p))%nat →
          covs (world p') !! k = covs (world p) !! k).
Proof.
  intros Hready Hwf.
  destruct (DistMaster_testnodedown_all_run nodes p c l Hready Hwf)
    as (p' & Hrun & Hf & Hd & Hrest).
  exists p'. split; [exact Hrun|]. split; [exact Hf|]. split; [exact Hd|].
  split; [|exact Hrest].
  intros node Hin. destruct (node_reported node) eqn:Hrep; [right|left].
  - split; [done|]. rewrite Hd. apply elem_of_union_l, elem_of_list_to_set.
    apply list_elem_of_fmap. exists node. split; [done|].
    by apply list_elem_of_filter.
  - split; [done|]. rewrite Hf. apply elem_of_app. right.
    by apply list_elem_of_filter.
Qed.

Lemma DistMaster_start_sessions (p : Proc) (cfg : Config) :
  config (self p) = Some cfg →
  let n := next_cov (world p) in
  let s := self p in
  ∃ p', DistMaster_start host p = (Ok tt, p') ∧
    master_ready p' n [topdir s] ∧
    combining_cov (self p') = Some (S n) ∧
    covs (world p') !! S n =
      Some (mkCoverage (cov_source s) (cov_branch s) SuffixNone (cov_config s)
              (abspath host (rc_data_file host (cov_config s)))
              (rc_paths host (cov_config s))) ∧
    next_cov (world p') = S (S n) ∧
    node_descs (self p') = node_descs s ∧
    failed_workers (self p') = failed_workers s ∧
    environ (world p') = environ (world p).
Proof.
  intros Hcfg. destruct p as [s w]. simpl in *.
  unfold DistMaster_start, master_ready. munfold. simpl.
  destruct (bool_decide (cov_config s ≠ "") && path_exists host (cov_config s)); simpl;
    rewrite ?Hcfg; simpl.
  all: rewrite lookup_insert_eq; simpl.
  all: destruct (cov_append s); simpl.
  all: rewrite lookup_insert_ne by lia; rewrite lookup_insert_eq; simpl.
  all: eexists; split; [reflexivity|]; simpl.
  all: rewrite lookup_insert_eq, lookup_insert_ne by lia; rewrite lookup_insert_eq.
  all: repeat split; try lia.
  all: eexists; split; [reflexivity|]; simpl; apply lookup_insert_eq.
Qed.

(** X6. A whole run of the master, [start()], the disconnects and
    [finish()], returns and leaves the combining session created at start
    as the active one. That session points at the absolute path of the
    first session's data file and has the configuration it was created
    with: the top directories the workers reported were registered on the
    first session, after the master's own top directory. The environment
    is what it was before [start()]. *)
Theorem DistMaster_run (nodes : list Node) (p : Proc) (cfg : Config) :
  config (self p) = Some cfg →
  Forall (λ node, node_sent_data node = true →
                  is_Some (node_output node !! "cov_worker_path")) nodes →
  let n := next_cov (world p) in
  let s := self p in
  ∃ p' cv,
    (DistMaster_start host;; DistMaster_testnodedown_all host nodes;;
     DistMaster_finish) p = (Ok tt, p') ∧
    cov (self p') = Some (S n) ∧
    covs (world p') !! S n =
      Some (mkCoverage (cov_source s) (cov_branch s) SuffixNone (cov_config s)
              (abspath host (rc_data_file host (cov_config s)))
              (rc_paths host (cov_config s))) ∧
    covs (world p') !! n = Some cv ∧
    cv_paths cv !! "source" = Some (topdir s :: reported_paths nodes) ∧
    failed_workers (self p') =
      failed_workers s ++ filter (λ node, node_reported node = false) nodes ∧
    node_descs (self p') =
      list_to_set (node_desc_of <$> filter (λ node, node_reported node = true) nodes)
      ∪ node_descs s ∧
    environ (world p') = environ (world p).
Proof.
  intros Hcfg Hwf n s.
  destruct (DistMaster_start_sessions p cfg Hcfg)
    as (p1 & Hrun1 & Hready1 & Hcc1 & Hcomb1 & Hn1 & Hd1 & Hf1 & He1).
  destruct (DistMaster_testnodedown_all_run nodes p1 _ _ Hready1 Hwf)
    as (p2 & Hrun2 & Hf2 & Hd2 & (Hc2 & (cv & Hcv2 & Hl2) & _) & _ & He2 & Hcc2 & Hk2).
  assert (DistMaster_finish p2 =
          (Ok tt, mkProc (set_cov (Some (S n)) (self p2))
                    (log_call (CallSave (S n))
                       (log_call (CallCombine (S n))
                          (log_call (CallLoad (S n))
                             (log_call (CallSave n)
                                (log_call (CallStop n) (world p2)))))))) as Hrun3.
  { rewrite Hcc1 in Hcc2. destruct p2 as [s2 w2]. simpl in *.
    unfold DistMaster_finish. munfold. simpl. rewrite Hc2. simpl. rewrite Hcc2. done. }
  eexists _, cv.
  split.
  { erewrite bind_ok; [|exact Hrun1]. erewrite bind_ok; [|exact Hrun2]. exact Hrun3. }
  simpl. rewrite Hf2, Hd2, He2, Hf1, Hd1, He1.
  rewrite Hk2 by (fold n; lia).
  repeat split; done.
Qed.

End MasterRun.

(** * Lifecycles and their errors *)

Section Lifecycles.
Context (host : Host).

(** X7. [Central.start()] followed by [Central.finish()] returns from
    any state. The engine is called in this order: cleanup, the two
    sessions, load or erase by the append flag, start, stop, save on the
    first session, then load, combine and save on the combining one, which
    becomes the active session and points at the absolute path of the
    first session's data file. The local node descriptor is recorded, the
    four channel variables are gone, and every other environment variable
    is as before. *)
Theorem Central_start_finish (p : Proc) :
  let n := next_cov (world p) in
  let s := self p in
  ∃ p', (Central_start host;; Central_finish host) p = (Ok tt, p') ∧
    calls (world p') =
      calls (world p) ++
        [CallCleanup; CallNew n; CallNew (S n);
         (if cov_append s then CallLoad n else CallErase n);
         CallStart n; CallStop n; CallSave n;
         CallLoad (S n); CallCombine (S n); CallSave (S n)] ∧
    cov (self p') = Some (S n) ∧
    cv_data_file <$> covs (world p') !! S n =
      Some (abspath host (rc_data_file host (cov_config s))) ∧
    cv_data_file <$> covs (world p') !! n = Some (rc_data_file host (cov_config s)) ∧
    node_descs (self p') =
      {[get_node_desc (sys_platform host) (sys_version_info host)]} ∪ node_descs s ∧
    channel_clear (environ (world p')) ∧
    (∀ k, k ∉ channel_vars → environ (world p') !! k = environ (world p) !! k).
Proof.
  intros n s. subst n s. destruct p as [s w].
  unfold Central_start. munfold. simpl.
  rewrite lookup_insert_eq. simpl.
  destruct (cov_append s); simpl.
  all: erewrite set_env_run;
    [|reflexivity|simpl; rewrite lookup_insert_ne by lia; apply lookup_insert_eq].
  all: unfold Central_finish, unset_env; munfold; simpl.
  all: eexists; split; [reflexivity|]; simpl.
  all: rewrite lookup_insert_eq, lookup_insert_ne by lia; rewrite lookup_insert_eq; simpl.
  all: split; [by repeat rewrite <- app_assoc|].
  all: repeat split; try done.
  all: try apply cleared_environ_clear.
  all: intros k Hk; unfold channel_vars in Hk; rewrite !not_elem_of_cons in Hk;
    destruct Hk as (?&?&?&?&_); unfold written_environ; simpl.
  all: destruct (cov_branch s); by simplify_map_eq.
Qed.

(** X8. A controller on which [start()] was never called: [pause()],
    [resume()] and the master's [finish()] raise [AttributeError] and
    change nothing, while [Central.finish()] and [DistWorker.finish()]
    raise it after having removed the four channel variables, and make no
    engine call. *)
Theorem not_started_errors (p : Proc) :
  cov (self p) = None →
  pause p = (Raise (AttributeError "stop"), p) ∧
  resume host p = (Raise (AttributeError "start"), p) ∧
  DistMaster_finish p = (Raise (AttributeError "stop"), p) ∧
  (∀ v, v ≠ DistMaster →
        ∃ p', finish host v p = (Raise (AttributeError "stop"), p') ∧
          self p' = self p ∧
          calls (world p') = calls (world p) ∧
          covs (world p') = covs (world p) ∧
          channel_clear (environ (world p')) ∧
          (∀ k, k ∉ channel_vars → environ (world p') !! k = environ (world p) !! k)).
Proof.
  intros Hc. destruct p as [s w]. simpl in *.
  split; [|split; [|split]].
  - unfold pause. munfold. simpl. by rewrite Hc.
  - unfold resume. munfold. simpl. by rewrite Hc.
  - unfold DistMaster_finish. munfold. simpl. by rewrite Hc.
  - intros v Hv. destruct v; [|done|]; simpl.
    all: unfold Central_finish, DistWorker_finish, unset_env; munfold; simpl.
    all: rewrite Hc; simpl.
    all: eexists; split; [reflexivity|]; simpl.
    all: repeat split; try done; try apply cleared_environ_clear.
    all: intros k Hk; unfold channel_vars in Hk; rewrite !not_elem_of_cons in Hk;
      destruct Hk as (?&?&?&?&_); by simplify_map_eq.
Qed.

(** X9. A worker whose sideband input has no [cov_master_host] entry, or
    has one but no [cov_master_topdir] entry, fails in [start()] with a
    [KeyError] naming the entry; only the cleanup has been called by then:
    no session exists, the options are not rewritten and the environment
    is untouched. *)
Theorem DistWorker_start_missing_input (p : Proc) (cfg : Config)
    (wi : gmap string pyval) :
  config (self p) = Some cfg →
  workerinput cfg = Some wi →
  (wi !! "cov_master_host" = None →
   DistWorker_start host p =
     (Raise (KeyError "cov_master_host"),
      mkProc (self p) (log_call CallCleanup (world p)))) ∧
  (∀ mh, wi !! "cov_master_host" = Some mh →
         wi !! "cov_master_topdir" = None →
         ∃ p', DistWorker_start host p = (Raise (KeyError "cov_master_topdir"), p') ∧
           world p' = log_call CallCleanup (world p) ∧
           cov (self p') = cov (self p) ∧
           cov_source (self p') = cov_source (self p) ∧
           cov_config (self p') = cov_config (self p)).
Proof.
  intros Hcfg Hwi. destruct p as [s w]. simpl in *.
  split.
  - intros Hmh. unfold DistWorker_start. munfold. simpl.
    rewrite Hcfg. simpl. rewrite Hwi. simpl. by rewrite Hmh.
  - intros mh Hmh Hmt. unfold DistWorker_start. munfold. simpl.
    rewrite Hcfg. simpl. rewrite Hwi. simpl. rewrite Hmh. simpl.
    destruct (pyval_eq_str (gethostname host) mh); simpl; rewrite Hmt; simpl.
    all: eexists; split; [reflexivity|]; done.
Qed.

(** X10. A worker's dataset that arrives without the worker's top
    directory: [testnodedown] raises [KeyError] for [cov_worker_path], but
    only after the dataset has been merged into a fresh session and saved;
    the node is recorded neither as failed nor by its descriptor. *)
Theorem testnodedown_missing_path (p : Proc) (node : Node)
    (node_id data : string) :
  node_output node !! "cov_worker_node_id" = Some node_id →
  node_output node !! "cov_worker_data" = Some data →
  node_output node !! "cov_worker_path" = None →
  let n := next_cov (world p) in
  ∃ p', DistMaster_testnodedown host node p = (Raise (KeyError "cov_worker_path"), p') ∧
    calls (world p') =
      calls (world p) ++
        [CallNew n; CallStart n; CallDataUpdate n data; CallStop n; CallSave n] ∧
    is_Some (covs (world p') !! n) ∧
    self p' = self p.
Proof.
  intros Hid Hdata Hpath n. destruct p as [s w]. simpl in *.
  unfold DistMaster_testnodedown, has_key. fold (node_output node).
  rewrite Hid, Hdata. rewrite !bool_decide_true by eauto. simpl.
  munfold. simpl. rewrite Hid, Hdata, Hpath. simpl.
  eexists. split; [reflexivity|]. simpl.
  split; [by repeat rewrite <- app_assoc|].
  split; [|done]. rewrite lookup_insert_eq. eauto.
Qed.

(** X11. [DistMaster.start()] asks for the config file to be synchronised
    exactly when its path is non-empty and the file exists: then the path
    is appended to the [rsyncdir] option, and without a configuration
    object [start()] raises before any session is created; otherwise the
    option is left alone and no configuration object is needed. The
    environment is never written. *)
Theorem DistMaster_start_rsync (p : Proc) :
  let s := self p in
  let wanted := bool_decide (cov_config s ≠ "") && path_exists host (cov_config s) in
  environ (world (DistMaster_start host p).2) = environ (world p) ∧
  match config s with
  | Some cfg =>
      ∃ p', DistMaster_start host p = (Ok tt, p') ∧
        (config (self p') ≫= λ c, Some (rsyncdir c)) =
          Some (if wanted then rsyncdir cfg ++ [cov_config s] else rsyncdir cfg)
  | None =>
      if wanted
      then DistMaster_start host p =
             (Raise (AttributeError "option"),
              mkProc s (log_call CallCleanup (world p)))
      else ∃ p', DistMaster_start host p = (Ok tt, p') ∧ config (self p') = None
  end.
Proof.
  intros s wanted. subst s wanted. split; [apply DistMaster_start_environ|].
  destruct p as [s w]. simpl.
  unfold DistMaster_start. munfold. simpl.
  destruct (config s) as [cfg|] eqn:Hcfg;
    destruct (bool_decide (cov_config s ≠ "") && path_exists host (cov_config s)); simpl.
  all: rewrite ?Hcfg; simpl; try reflexivity.
  all: rewrite lookup_insert_eq; simpl.
  all: destruct (cov_append s); simpl.
  all: rewrite lookup_insert_ne by lia; rewrite lookup_insert_eq; simpl.
  all: eexists; split; [reflexivity|]; simpl; by rewrite ?Hcfg.
Qed.

(** The session a worker's [start()] creates, and the calls it makes. *)
Lemma DistWorker_start_session_run (p : Proc) (cfg : Config) (wi : gmap string pyval)
    (mh : pyval) (mt : string) :
  config (self p) = Some cfg →
  workerinput cfg = Some wi →
  wi !! "cov_master_host" = Some mh →
  wi !! "cov_master_topdir" = Some (PStr mt) →
  let b := pyval_eq_str (gethostname host) mh && bool_decide (topdir (self p) = mt) in
  let n := next_cov (world p) in
  let s := self p in
  let src := if b then cov_source s
             else map (λ source, PyStr.replace source mt (topdir s)) <$> cov_source s in
  let conf := if b then cov_config s else PyStr.replace (cov_config s) mt (topdir s) in
  ∃ p', DistWorker_start host p = (Ok tt, p') ∧
    cov_source (self p') = src ∧
    cov_config (self p') = conf ∧
    cov (self p') = Some n ∧
    covs (world p') =
      <[n := mkCoverage src (cov_branch s) SuffixTrue conf
               (rc_data_file host conf) (rc_paths host conf)]> (covs (world p)) ∧
    calls (world p') =
      calls (world p) ++
        [CallCleanup; CallNew n; (if cov_append s then CallLoad n else CallErase n);
         CallStart n].
Proof.
  intros Hcfg Hwi Hmh Hmt b n s src conf. subst b n s src conf.
  destruct p as [s w]. simpl in *.
  unfold DistWorker_start.
  do 3 (rewrite bind_run; simpl).
  unfold self_workerinput. munfold. simpl. rewrite Hcfg. simpl. rewrite Hwi. simpl.
  rewrite Hmh. simpl. rewrite Hmt. simpl.
  destruct (pyval_eq_str (gethostname host) mh) eqn:E1; simpl;
    [destruct (bool_decide (topdir s = mt)) eqn:E2; simpl|].
  all: destruct (cov_source s) as [l|] eqn:Hsrc; simpl;
    rewrite ?mapM_pure; simpl.
  all: destruct (cov_append s); simpl.
  all: erewrite set_env_run; [|reflexivity|apply lookup_insert_eq].
  all: eexists; split; [reflexivity|]; simpl; rewrite ?Hsrc.
  all: repeat split; try done; by repeat rewrite <- app_assoc.
Qed.

(** X12. The session of a worker: [start()] makes the calls cleanup, new
    session, load or erase by the append flag, start, and the one session
    it creates has a suffix requested ([data_suffix=True]) and is built
    from the worker's options as they stand after the rewrite. A
    collocated worker keeps its source roots and config path as they
    were, and a source list of [None] stays [None] in either case. *)
Theorem DistWorker_start_session (p : Proc) (cfg : Config) (wi : gmap string pyval)
    (mh : pyval) (mt : string) :
  config (self p) = Some cfg →
  workerinput cfg = Some wi →
  wi !! "cov_master_host" = Some mh →
  wi !! "cov_master_topdir" = Some (PStr mt) →
  let n := next_cov (world p) in
  ∃ p', DistWorker_start host p = (Ok tt, p') ∧
    cov (self p') = Some n ∧
    covs (world p') =
      <[n := mkCoverage (cov_source (self p')) (cov_branch (self p)) SuffixTrue
               (cov_config (self p')) (rc_data_file host (cov_config (self p')))
               (rc_paths host (cov_config (self p')))]> (covs (world p)) ∧
    calls (world p') =
      calls (world p) ++
        [CallCleanup; CallNew n;
         (if cov_append (self p) then CallLoad n else CallErase n); CallStart n] ∧
    (is_collocated (self p') = Some true →
     cov_source (self p') = cov_source (self p) ∧
     cov_config (self p') = cov_config (self p)) ∧
    (cov_source (self p) = None → cov_source (self p') = None).
Proof.
  intros Hcfg Hwi Hmh Hmt n.
  destruct (DistWorker_start_session_run p cfg wi mh mt Hcfg Hwi Hmh Hmt)
    as (p' & Hrun & Hsrc & Hconf & Hc & Hcovs & Hcalls).
  destruct (DistWorker_start_run host p cfg wi mh mt Hcfg Hwi Hmh Hmt)
    as (p'' & _ & Hrun' & Hcol & _).
  rewrite Hrun in Hrun'. injection Hrun' as <-.
  exists p'. split; [exact Hrun|]. split; [exact Hc|].
  split; [by rewrite Hsrc, Hconf|]. split; [exact Hcalls|]. split.
  - intros Htrue. rewrite Hcol in Htrue. injection Htrue as Htrue.
    rewrite Hsrc, Hconf. simpl in Htrue. by rewrite Htrue.
  - intros Hnone. rewrite Hsrc, Hnone. by destruct (_ && _).
Qed.

(** X18. A worker's [start()] followed by [finish()], with both sideband
    entries present and an output mapping to write to, returns. In
    between the engine sees cleanup, the new session, load or erase,
    start and stop, and then save alone when the worker is collocated, or
    combine, save and the serialisation when it is not. Afterwards the
    four channel variables are gone, every other environment variable is
    as before, and the output mapping holds the node identifier. *)
Theorem DistWorker_start_finish (p : Proc) (cfg : Config) (wi : gmap string pyval)
    (mh : pyval) (mt : string) (out : gmap string string) :
  config (self p) = Some cfg →
  workerinput cfg = Some wi →
  wi !! "cov_master_host" = Some mh →
  wi !! "cov_master_topdir" = Some (PStr mt) →
  workeroutput cfg = Some out →
  let b := pyval_eq_str (gethostname host) mh && bool_decide (topdir (self p) = mt) in
  let n := next_cov (world p) in
  ∃ p', (DistWorker_start host;; DistWorker_finish host) p = (Ok tt, p') ∧
    calls (world p') =
      calls (world p) ++
        [CallCleanup; CallNew n;
         (if cov_append (self p) then CallLoad n else CallErase n);
         CallStart n; CallStop n] ++
        (if b then [CallSave n] else [CallCombine n; CallSave n; CallDataWrite n]) ∧
    channel_clear (environ (world p')) ∧
    (∀ k, k ∉ channel_vars → environ (world p') !! k = environ (world p) !! k) ∧
    (config (self p') ≫= workeroutput) ≫= (λ o, o !! "cov_worker_node_id") =
      Some (nodeid (self p)).
Proof.
  intros Hcfg Hwi Hmh Hmt Hout b n.
  destruct (DistWorker_start_session_run p cfg wi mh mt Hcfg Hwi Hmh Hmt)
    as (p1 & Hrun & _ & _ & Hc & _ & Hcalls).
  destruct (DistWorker_start_run host p cfg wi mh mt Hcfg Hwi Hmh Hmt)
    as (p1' & cv & Hrun' & Hcol & _ & _ & _ & _ & Henv & _ & Hcfg1 & Hnid & _).
  rewrite Hrun in Hrun'. injection Hrun' as <-.
  rewrite Hcfg in Hcfg1.
  pose proof (DistWorker_finish_run host p1 _ _ cfg out Hc Hcol Hcfg1 Hout) as Hfin.
  fold b in Hfin, Hcol.
  eexists. split; [erewrite bind_ok; [exact Hfin|exact Hrun]|].
  destruct b; simpl; rewrite Hcalls, Henv, Hnid.
  all: split; [by repeat rewrite <- app_assoc|].
  all: split; [apply cleared_environ_clear|].
  all: split; [|by simplify_map_eq].
  all: intros k Hk; unfold channel_vars in Hk; rewrite !not_elem_of_cons in Hk;
    destruct Hk as (?&?&?&?&_); unfold written_environ, cleared_environ.
  all: destruct (cov_branch (self p1)); by simplify_map_eq.
Qed.

(** X13. Whatever the master's node handle held before, a worker that
    starts with the sideband input [configure_node] wrote and runs to
    [finish()] always hands back its node identifier, so the master never
    counts it as failed. It sends a dataset exactly when it is not on the
    master's host in the master's top directory, and then its own top
    directory with it. *)
Theorem configured_worker_reports (hm : Host) (pm : Proc) (node : Node)
    (o : RunConfig) (nodeid : string) (w : World) :
  ∃ node' out,
    DistMaster_configure_node hm node pm = (Ok node', pm) ∧
    run_worker host o (node_workerinput node') nodeid w = Ok out ∧
    out !! "cov_worker_node_id" = Some nodeid ∧
    node_reported (set_node_workeroutput out node') = true ∧
    (is_Some (out !! "cov_worker_data") ↔
     ¬ (gethostname host = gethostname hm ∧ getcwd host = topdir (self pm))) ∧
    (is_Some (out !! "cov_worker_data") → out !! "cov_worker_path" = Some (getcwd host)).
Proof.
  destruct (run_worker_output host o
              (<["cov_master_rsync_roots" := PList (nodemanager_roots node)]>
                 (<["cov_master_topdir" := PStr (topdir (self pm))]>
                    (<["cov_master_host" := PStr (gethostname hm)]>
                       (node_workerinput node))))
              (PStr (gethostname hm)) (topdir (self pm)) nodeid w)
    as [data Hout].
  { solve_lookup. }
  { solve_lookup. }
  eexists _, _. split; [reflexivity|].
  cbn [node_workerinput set_node_workerinput].
  split; [exact Hout|].
  simpl pyval_eq_str.
  destruct (bool_decide (gethostname host = gethostname hm)) eqn:Eh;
    [destruct (bool_decide (getcwd host = topdir (self pm))) eqn:Ed|]; simpl.
  - apply bool_decide_eq_true in Eh, Ed.
    split; [solve_lookup|]. split; [unfold node_reported, node_output, has_key; simpl;
      rewrite lookup_insert_eq; done|].
    split; [split|].
    + rewrite lookup_insert_ne by done. rewrite lookup_empty. by intros [? ?].
    + intros Hn. by destruct Hn.
    + rewrite lookup_insert_ne by done. rewrite lookup_empty. by intros [? ?].
  - apply bool_decide_eq_true in Eh. apply bool_decide_eq_false in Ed.
    split; [solve_lookup|]. split; [unfold node_reported, node_output, has_key; simpl;
      rewrite lookup_insert_ne by done; rewrite lookup_insert_eq; done|].
    split; [split|].
    + intros _ [_ ?]. done.
    + intros _. rewrite lookup_insert_eq. eauto.
    + intros _. solve_lookup.
  - apply bool_decide_eq_false in Eh.
    split; [solve_lookup|]. split; [unfold node_reported, node_output, has_key; simpl;
      rewrite lookup_insert_ne by done; rewrite lookup_insert_eq; done|].
    split; [split|].
    + intros _ [? _]. done.
    + intros _. rewrite lookup_insert_eq. eauto.
    + intros _. solve_lookup.
Qed.

End Lifecycles.

(** * More on the path rewrite and the separator line *)

Lemma prefix_decompose (a b : string) :
  String.prefix a b = true → ∃ rest, b = a +:+ rest.
Proof.
  revert b. induction a as [|c a IH]; intros b Hp.
  - by exists b.
  - destruct b as [|c' b]; [discriminate|]. cbn [String.prefix] in Hp.
    destruct (ascii_dec c c') as [->|]; [|discriminate].
    destruct (IH b Hp) as [rest ->]. by exists rest.
Qed.

Lemma replace_go_same (old : string) (n : nat) (s : string) :
  old ≠ "" → (String.length s ≤ n)%nat → PyStr.replace_go old old O s = s.
Proof.
  intros Hne. revert s. induction n as [|n IH]; intros s Hlen.
  { destruct s; [reflexivity|simpl in Hlen; lia]. }
  destruct s as [|c s]; [reflexivity|].
  cbn [PyStr.replace_go].
  destruct (String.prefix old (String c s)) eqn:Hp.
  - destruct (prefix_decompose _ _ Hp) as [rest Hrest].
    destruct old as [|c' old]; [done|].
    rewrite str_app_cons in Hrest. injection Hrest as -> ->.
    cbn [String.length Nat.pred]. rewrite replace_go_skip.
    rewrite IH; [by rewrite str_app_cons|].
    cbn [String.length] in Hlen. rewrite str_length_app in Hlen. lia.
  - rewrite IH; [done|]. simpl in Hlen. lia.
Qed.

Lemma interleave_empty (s : string) : PyStr.interleave "" s = s.
Proof. induction s as [|c s IH]; [reflexivity|]. cbn [PyStr.interleave]. by rewrite IH. Qed.

(** Replacing a directory by itself changes nothing. *)
Lemma replace_same (s old : string) : PyStr.replace s old old = s.
Proof.
  destruct old as [|c old].
  - apply interleave_empty.
  - unfold PyStr.replace. by apply (replace_go_same _ (String.length s)).
Qed.

Lemma map_replace_same (old : string) (l : list string) :
  map (λ source, PyStr.replace source old old) l = l.
Proof.
  induction l as [|x l IH]; [done|]. simpl. by rewrite replace_same, IH.
Qed.

Section Rewrite.
Context (host : Host).

(** X14. A worker on another host whose top directory is the master's top
    directory is not collocated, and the rewrite leaves its source roots
    and its config path exactly as they were. *)
Theorem DistWorker_start_same_topdir (p : Proc) (cfg : Config)
    (wi : gmap string pyval) (mh : string) :
  config (self p) = Some cfg →
  workerinput cfg = Some wi →
  wi !! "cov_master_host" = Some (PStr mh) →
  wi !! "cov_master_topdir" = Some (PStr (topdir (self p))) →
  gethostname host ≠ mh →
  ∃ p', DistWorker_start host p = (Ok tt, p') ∧
    is_collocated (self p') = Some false ∧
    cov_source (self p') = cov_source (self p) ∧
    cov_config (self p') = cov_config (self p).
Proof.
  intros Hcfg Hwi Hmh Hmt Hne.
  destruct (DistWorker_start_run host p cfg wi (PStr mh) _ Hcfg Hwi Hmh Hmt)
    as (p' & cv & Hrun & Hcol & Hsrc & Hconf & _).
  simpl in Hcol, Hsrc, Hconf.
  rewrite (bool_decide_false (gethostname host = mh)) in Hcol, Hsrc, Hconf by done.
  simpl in Hcol, Hsrc, Hconf.
  exists p'. split; [exact Hrun|]. split; [exact Hcol|]. split.
  - rewrite Hsrc. destruct (cov_source (self p)) as [src|]; [|done]. simpl.
    by rewrite map_replace_same.
  - by rewrite Hconf, replace_same.
Qed.

(** X15. Any number of [pause()]/[resume()] rounds on a started
    controller returns, leaves the controller object as it is, creates no
    session and calls the engine with stop and start on the controller's
    session, in turn, once per round. *)
Theorem pause_resume_calls (n : nat) (p : Proc) (c : nat) (cv : Coverage) :
  cov (self p) = Some c →
  covs (world p) !! c = Some cv →
  ∃ p', pause_resume host n p = (Ok tt, p') ∧
    self p' = self p ∧
    covs (world p') = covs (world p) ∧
    next_cov (world p') = next_cov (world p) ∧
    calls (world p') = calls (world p) ++ mjoin (replicate n [CallStop c; CallStart c]).
Proof.
  revert p. induction n as [|n IH]; intros p Hc Hcv.
  { exists p. simpl. by rewrite app_nil_r. }
  cbn [pause_resume].
  erewrite bind_ok; [|by apply pause_run].
  erewrite bind_ok; [|by apply resume_run].
  edestruct IH as (p' & Hrun & Hself & Hcovs & Hnext & Hcalls);
    [..|exists p'; split; [exact Hrun|]].
  - exact Hc.
  - exact Hcv.
  - rewrite Hself, Hcovs, Hnext, Hcalls. simpl.
    repeat split. by repeat rewrite <- app_assoc.
Qed.

End Rewrite.

(** X16. A title of 66 characters or more gets the minimal frame: on a
    stream without a [sep] method the line is one copy of the separator,
    a space, the title, a space and one copy of the separator. With a
    one-character separator it is four characters longer than the title:
    exactly 70 columns for a title of 66 characters, and more than 70
    columns exactly when the title has 67 characters or more. *)
Theorem sep_long_title (stream : Stream) (s txt : string) :
  has_sep stream = false →
  (66 ≤ String.length txt)%nat →
  sep stream s txt =
    stream_write stream (s +:+ " " +:+ txt +:+ " " +:+ s +:+ PyStr.nl) ∧
  (String.length s = 1%nat →
   String.length (s +:+ " " +:+ txt +:+ " " +:+ s) = (String.length txt + 4)%nat ∧
   (70 ≤ String.length (s +:+ " " +:+ txt +:+ " " +:+ s))%nat ∧
   (String.length txt = 66%nat →
    String.length (s +:+ " " +:+ txt +:+ " " +:+ s) = 70%nat) ∧
   ((70 < String.length (s +:+ " " +:+ txt +:+ " " +:+ s))%nat ↔
    (67 ≤ String.length txt)%nat)).
Proof.
  intros Hs Hlen. split.
  - unfold sep. rewrite Hs.
    assert (Z.max (70 - 2 - Z.of_nat (String.length txt)) 2 = 2) as -> by lia.
    change (2 `div` 2) with 1. change (2 `mod` 2) with 0.
    unfold PyStr.mul. simpl PyStr.repeat.
    assert (∀ a b : string, (a +:+ "") +:+ b = a +:+ b) as Hnil.
    { intros a b. by rewrite str_app_assoc. }
    by rewrite !Hnil.
  - intros Hone.
    assert (String.length (s +:+ " " +:+ txt +:+ " " +:+ s) =
            (String.length txt + 4)%nat) as Hline.
    { rewrite !str_length_app, Hone. simpl. lia. }
    rewrite Hline. repeat split; lia.
Qed.

(** * Node descriptors *)

Lemma pretty_N_char_digit (x : N) : is_digit (pretty_N_char x) = true.
Proof. unfold pretty_N_char. by repeat case_match. Qed.

Lemma pretty_N_go_digits (x : N) (s : string) :
  all_digits s = true → all_digits (pretty_N_go x s) = true.
Proof.
  revert s. induction (N.lt_wf_0 x) as [x _ IH]; intros s Hs.
  destruct (decide (x = 0%N)) as [->|Hne]; [by rewrite pretty_N_go_0|].
  rewrite pretty_N_go_step by lia.
  apply IH.
  - apply N.div_lt; lia.
  - cbn [all_digits]. by rewrite pretty_N_char_digit, Hs.
Qed.

Lemma pretty_N_digits (x : N) : all_digits (pretty x) = true.
Proof.
  unfold pretty, pretty_N. case_decide; [reflexivity|].
  by apply pretty_N_go_digits.
Qed.

(** Two digit strings followed by the same non-digit: the first non-digit
    ends both. *)
Lemma digits_split_left (d1 d2 : string) (c : ascii) (r1 r2 : string) :
  all_digits d1 = true → all_digits d2 = true → is_digit c = false →
  d1 +:+ String c r1 = d2 +:+ String c r2 → d1 = d2 ∧ r1 = r2.
Proof.
  intros H1 H2 Hc. revert d2 H2.
  induction d1 as [|a d1 IH]; intros [|b d2] H2 Heq.
  - rewrite !str_app_nil in Heq. by injection Heq as ->.
  - rewrite str_app_nil, str_app_cons in Heq. injection Heq as <- _.
    cbn [all_digits] in H2. rewrite Hc in H2. done.
  - rewrite str_app_nil, str_app_cons in Heq. injection Heq as -> _.
    cbn [all_digits] in H1. rewrite Hc in H1. done.
  - rewrite !str_app_cons in Heq. injection Heq as -> Heq.
    cbn [all_digits] in H1, H2.
    apply andb_true_iff in H1 as [_ H1]. apply andb_true_iff in H2 as [_ H2].
    destruct (IH H1 d2 H2 Heq) as [-> ->]. done.
Qed.

Lemma all_digits_app_sep (a : string) (c : ascii) (b : string) :
  is_digit c = false → all_digits (a +:+ String c b) = false.
Proof.
  intros Hc. induction a as [|x a IH].
  - rewrite str_app_nil. cbn [all_digits]. by rewrite Hc.
  - rewrite str_app_cons. cbn [all_digits]. rewrite IH. apply andb_false_r.
Qed.

(** Two strings, each followed by the same non-digit and a digit string:
    the last non-digit starts both digit strings. *)
Lemma digits_split_right (r1 r2 : string) (c : ascii) (d1 d2 : string) :
  all_digits d1 = true → all_digits d2 = true → is_digit c = false →
  r1 +:+ String c d1 = r2 +:+ String c d2 → r1 = r2 ∧ d1 = d2.
Proof.
  intros H1 H2 Hc. revert r2.
  induction r1 as [|a r1 IH]; intros [|b r2] Heq.
  - rewrite !str_app_nil in Heq. by injection Heq as ->.
  - rewrite str_app_nil, str_app_cons in Heq. injection Heq as <- ->.
    by rewrite all_digits_app_sep in H1.
  - rewrite str_app_nil, str_app_cons in Heq. injection Heq as -> <-.
    by rewrite all_digits_app_sep in H2.
  - rewrite !str_app_cons in Heq. injection Heq as -> Heq.
    destruct (IH r2 Heq) as [-> ->]. done.
Qed.

(** X17. On one platform the node descriptor determines the version: two
    version tuples with the same descriptor are equal, so the master's set
    of descriptors never merges two Python versions of one platform. *)
Theorem get_node_desc_version_inj (platform : string) (v1 v2 : VersionInfo) :
  get_node_desc platform v1 = get_node_desc platform v2 → v1 = v2.
Proof.
  unfold get_node_desc. intros Heq.
  do 3 apply String.app_inj in Heq.
  destruct v1 as [a1 b1 c1 l1 e1], v2 as [a2 b2 c2 l2 e2]. simpl in Heq.
  apply (digits_split_left _ _ "."%char) in Heq as [Ha Heq];
    [|apply pretty_N_digits..|done].
  apply (digits_split_left _ _ "."%char) in Heq as [Hb Heq];
    [|apply pretty_N_digits..|done].
  apply (digits_split_left _ _ "-"%char) in Heq as [Hc Heq];
    [|apply pretty_N_digits..|done].
  apply (digits_split_right _ _ "-"%char) in Heq as [Hl He];
    [|apply pretty_N_digits..|done].
  apply (inj pretty) in Ha, Hb, Hc, He. by subst.
Qed.

(** * The further properties at the sample deployment *)

Lemma summary_lists_descriptors_witness :
  ∃ totals stream' descs,
    summary sample_summary 0 (mkStream true []) finished_master =
      (Ok (totals, stream'), finished_master) ∧
    written stream' =
      [OpSep "-" "coverage"] ++ concat (sep_ops true " " <$> descs) ++
      [OpWrite "TOTAL 100%"] ∧
    Sorted String.le descs ∧
    length descs = 2%nat.
Proof.
  destruct (summary_lists_descriptors sample_summary 0 (mkStream true [])
              finished_master 1%nat)
    as (totals & stream' & descs & Hrun & Hw & Hs & Hnd & Hin).
  - evaluated.
  - evaluated.
  - evaluated.
  - exists totals, stream', descs. split; [exact Hrun|]. split; [|split; [exact Hs|]].
    + rewrite Hw.
      assert (failed_workers (self finished_master) = []) as -> by evaluated.
      cbn [failed_block sample_summary fst written]. by rewrite app_nil_r.
    + assert (descs ≡ₚ elements (node_descs (self finished_master))) as Hperm.
      { apply NoDup_Permutation; [done|apply NoDup_elements|].
        intros d. rewrite Hin. by rewrite elem_of_elements. }
      rewrite Hperm. vm_compute. reflexivity.
Defined.

Lemma summary_single_descriptor_witness :
  ∃ totals stream',
    summary sample_summary 0 (mkStream true []) finished_central =
      (Ok (totals, stream'), finished_central) ∧
    written stream' =
      [OpSep "-" "coverage: platform linux, python 3.6.1-final-0"; OpWrite "TOTAL 100%"].
Proof.
  destruct (summary_single_descriptor sample_summary 0 (mkStream true [])
              finished_central 1%nat "platform linux, python 3.6.1-final-0")
    as (totals & stream' & Hrun & Hw).
  - evaluated.
  - evaluated.
  - evaluated.
  - exists totals, stream'. split; [exact Hrun|]. rewrite Hw. reflexivity.
Defined.

Lemma summary_without_report_witness :
  summary sample_summary 0 (mkStream false [OpWrite "== 3 passed =="]) quiet_master =
    (Ok (100, mkStream false [OpWrite "== 3 passed =="; OpWrite "TOTAL 100%"]),
     quiet_master).
Proof.
  apply (summary_without_report sample_summary 0
           (mkStream false [OpWrite "== 3 passed =="]) quiet_master 0%nat).
  - evaluated.
  - evaluated.
Defined.

Lemma failed_worker_is_reported_witness :
  ∃ p' totals stream' before,
    DistMaster_testnodedown master_host silent_node started_master = (Ok tt, p') ∧
    summary sample_summary 0 (mkStream true []) p' = (Ok (totals, stream'), p') ∧
    written stream' =
      before ++
      [OpSep "-" "coverage: failed workers"; OpWrite failed_workers_note;
       OpWrite ("gw7" +:+ PyStr.nl)].
Proof.
  destruct (failed_worker_is_reported sample_summary master_host 0 (mkStream true [])
              started_master silent_node 0%nat)
    as (p' & totals & stream' & before & Hdown & Hsum & Hw).
  - evaluated.
  - evaluated.
  - evaluated.
  - exists p', totals, stream', before. split; [exact Hdown|]. split; [exact Hsum|].
    rewrite Hw. reflexivity.
Defined.

Lemma started_master_ready : master_ready started_master 0 ["/m"].
Proof.
  split; [vm_compute; reflexivity|]. split.
  - eexists. split; vm_compute; reflexivity.
  - evaluated.
Qed.

Lemma testnodedown_all_partition_witness :
  ∃ p', DistMaster_testnodedown_all master_host
          [payload_node "gw1"; silent_node; local_node] started_master = (Ok tt, p') ∧
    failed_workers (self p') = [silent_node] ∧
    size (node_descs (self p')) = 2%nat ∧
    master_ready p' 0 ["/m"; "/w2"] ∧
    next_cov (world p') = 3%nat.
Proof.
  destruct (testnodedown_all_partition master_host
              [payload_node "gw1"; silent_node; local_node] started_master 0 ["/m"])
    as (p' & Hrun & Hf & Hd & _ & Hready & Hn & _).
  - exact started_master_ready.
  - repeat constructor; intros Hsent;
      first [vm_compute in Hsent; discriminate Hsent | vm_compute; eauto].
  - exists p'. split; [exact Hrun|]. split; [exact Hf|]. split; [|split].
    + rewrite Hd. vm_compute. reflexivity.
    + exact Hready.
    + rewrite Hn. vm_compute. reflexivity.
Defined.

Lemma DistMaster_run_witness :
  ∃ p' cv,
    (DistMaster_start master_host;;
     DistMaster_testnodedown_all master_host [payload_node "gw1"; silent_node; local_node];;
     DistMaster_finish) (sample_master (Some ["/m/pkg"]) true) = (Ok tt, p') ∧
    cov (self p') = Some 1%nat ∧
    cv_paths <$> covs (world p') !! 1%nat = Some ∅ ∧
    covs (world p') !! 0%nat = Some cv ∧
    cv_paths cv !! "source" = Some ["/m"; "/w2"] ∧
    failed_workers (self p') = [silent_node].
Proof.
  destruct (DistMaster_run master_host [payload_node "gw1"; silent_node; local_node]
              (sample_master (Some ["/m/pkg"]) true) (mkConfig None None []))
    as (p' & cv & Hrun & Hc & Hcomb & Hcv & Hsrc & Hf & _).
  - evaluated.
  - repeat constructor; intros Hsent;
      first [vm_compute in Hsent; discriminate Hsent | vm_compute; eauto].
  - exists p', cv. split; [exact Hrun|]. split; [exact Hc|].
    split; [exact (f_equal (fmap cv_paths) Hcomb)|].
    split; [exact Hcv|]. split; [exact Hsrc|exact Hf].
Defined.

Lemma not_started_errors_witness :
  pause (sample_central None false) =
    (Raise (AttributeError "stop"), sample_central None false) ∧
  resume master_host (sample_central None false) =
    (Raise (AttributeError "start"), sample_central None false).
Proof.
  destruct (not_started_errors master_host (sample_central None false))
    as (Hp & Hr & _); [evaluated|].
  split; [exact Hp|exact Hr].
Defined.

Lemma DistWorker_start_missing_input_witness :
  DistWorker_start worker2_host uninformed_worker =
    (Raise (KeyError "cov_master_host"),
     mkProc (self uninformed_worker) (log_call CallCleanup (world uninformed_worker))).
Proof.
  destruct (DistWorker_start_missing_input worker2_host uninformed_worker
              (mkConfig (Some ∅) (Some ∅) []) ∅) as [Hhost _]; [evaluated..|].
  apply Hhost. evaluated.
Defined.

Lemma testnodedown_missing_path_witness :
  ∃ p', DistMaster_testnodedown master_host pathless_node started_master =
          (Raise (KeyError "cov_worker_path"), p') ∧
    calls (world p') =
      calls (world started_master) ++
        [CallNew 2; CallStart 2; CallDataUpdate 2 "x.py:1,2"; CallStop 2; CallSave 2]%nat ∧
    self p' = self started_master.
Proof.
  destruct (testnodedown_missing_path master_host started_master pathless_node
              "gw5" "x.py:1,2") as (p' & Hrun & Hcalls & _ & Hself); [evaluated..|].
  exists p'. split; [exact Hrun|]. split; [exact Hcalls|exact Hself].
Defined.

Lemma DistWorker_start_session_witness :
  ∃ p', DistWorker_start worker2_host
          (sample_worker worker2_host (Some ["/m/pkg"]) true "gw1") = (Ok tt, p') ∧
    covs (world p') =
      <[0%nat := mkCoverage (Some ["/w2/pkg"]) true SuffixTrue ".coveragerc" ".coverage" ∅]> ∅ ∧
    calls (world p') = [CallCleanup; CallNew 0; CallErase 0; CallStart 0]%nat.
Proof.
  destruct (DistWorker_start_session worker2_host
              (sample_worker worker2_host (Some ["/m/pkg"]) true "gw1")
              (mkConfig (Some sample_workerinput) (Some ∅) []) sample_workerinput
              (PStr "A") "/m")
    as (p' & Hrun & _ & Hcovs & Hcalls & _); [evaluated..|].
  exists p'. split; [exact Hrun|]. split; [|exact Hcalls].
  rewrite Hcovs.
  assert (p' = (DistWorker_start worker2_host
                  (sample_worker worker2_host (Some ["/m/pkg"]) true "gw1")).2) as ->
    by (by rewrite Hrun).
  vm_compute. reflexivity.
Defined.

Lemma DistWorker_start_same_topdir_witness :
  ∃ p', DistWorker_start worker3_host
          (sample_worker worker3_host (Some ["/m/pkg"]) true "gw3") = (Ok tt, p') ∧
    is_collocated (self p') = Some false ∧
    cov_source (self p') = Some ["/m/pkg"] ∧
    cov_config (self p') = ".coveragerc".
Proof.
  apply (DistWorker_start_same_topdir worker3_host
           (sample_worker worker3_host (Some ["/m/pkg"]) true "gw3")
           (mkConfig (Some sample_workerinput) (Some ∅) []) sample_workerinput "A");
    evaluated.
Defined.

Lemma pause_resume_calls_witness :
  ∃ p', pause_resume worker2_host 2 started_worker = (Ok tt, p') ∧
    self p' = self started_worker ∧
    calls (world p') =
      calls (world started_worker) ++ [CallStop 0; CallStart 0; CallStop 0; CallStart 0]%nat.
Proof.
  destruct (pause_resume_calls worker2_host 2 started_worker 0%nat
              (mkCoverage (Some ["/w2/pkg"]) true SuffixTrue ".coveragerc" ".coverage" ∅))
    as (p' & Hrun & Hself & _ & _ & Hcalls); [evaluated..|].
  exists p'. split; [exact Hrun|]. split; [exact Hself|exact Hcalls].
Defined.

Lemma sep_long_title_witness :
  sep (mkStream false []) "-"
    "coverage: platform linux, python 3.6.1-final-0, and a long list of others" =
  stream_write (mkStream false [])
    ("- coverage: platform linux, python 3.6.1-final-0, and a long list of others -"
     +:+ PyStr.nl) ∧
  (70 < String.length
          ("- coverage: platform linux, python 3.6.1-final-0, and a long list of others -"))%nat.
Proof.
  destruct (sep_long_title (mkStream false []) "-"
              "coverage: platform linux, python 3.6.1-final-0, and a long list of others")
    as [Hsep Hlen]; [evaluated|evaluated|].
  split; [exact Hsep|].
  destruct Hlen as (_ & _ & _ & Hmore); [evaluated|].
  apply Hmore. evaluated.
Defined.

Lemma get_node_desc_version_inj_witness :
  mkVersionInfo 3 6 1 "final" 0 = mkVersionInfo 3 6 1 "final" 0.
Proof.
  apply (get_node_desc_version_inj "linux"). evaluated.
Defined.

Lemma DistWorker_start_finish_witness :
  ∃ p', (DistWorker_start worker2_host;; DistWorker_finish worker2_host)
          (sample_worker worker2_host (Some ["/m/pkg"]) true "gw1") = (Ok tt, p') ∧
    calls (world p') =
      [CallCleanup; CallNew 0; CallErase 0; CallStart 0; CallStop 0;
       CallCombine 0; CallSave 0; CallDataWrite 0]%nat ∧
    channel_clear (environ (world p')).
Proof.
  destruct (DistWorker_start_finish worker2_host
              (sample_worker worker2_host (Some ["/m/pkg"]) true "gw1")
              (mkConfig (Some sample_workerinput) (Some ∅) []) sample_workerinput
              (PStr "A") "/m" ∅)
    as (p' & Hrun & Hcalls & Hclear & _); [evaluated..|].
  exists p'. split; [exact Hrun|]. split; [exact Hcalls|exact Hclear].
Defined.

Lemma Central_start_finish_witness :
  ∃ p', (Central_start master_host;; Central_finish master_host)
          (sample_central None false) = (Ok tt, p') ∧
    calls (world p') =
      [CallCleanup; CallNew 0; CallNew 1; CallErase 0; CallStart 0; CallStop 0;
       CallSave 0; CallLoad 1; CallCombine 1; CallSave 1]%nat ∧
    cov (self p') = Some 1%nat ∧
    channel_clear (environ (world p')).
Proof.
  destruct (Central_start_finish master_host (sample_central None false))
    as (p' & Hrun & Hcalls & Hc & _ & _ & _ & Hclear & _).
  exists p'. split; [exact Hrun|]. split; [exact Hcalls|]. split; [exact Hc|exact Hclear].
Defined.

Lemma DistMaster_start_rsync_witness :
  ∃ p', DistMaster_start master_host (sample_master None false) = (Ok tt, p') ∧
    (config (self p') ≫= λ c, Some (rsyncdir c)) = Some [".coveragerc"].
Proof.
  destruct (DistMaster_start_rsync master_host (sample_master None false))
    as [_ (p' & Hrun & Hsync)].
  exists p'. split; [exact Hrun|exact Hsync].
Defined.

Lemma configured_worker_reports_witness :
  ∃ node' out,
    DistMaster_configure_node master_host (remote_node worker2_host "gw1" ["/m"])
      started_master = (Ok node', started_master) ∧
    run_worker worker2_host sample_options (node_workerinput node') "gw1" fresh_world =
      Ok out ∧
    out !! "cov_worker_node_id" = Some "gw1" ∧
    node_reported (set_node_workeroutput out node') = true.
Proof.
  destruct (configured_worker_reports worker2_host master_host started_master
              (remote_node worker2_host "gw1" ["/m"]) sample_options "gw1" fresh_world)
    as (node' & out & Hconf & Hrun & Hid & Hrep & _).
  exists node', out. split; [exact Hconf|]. split; [exact Hrun|].
  split; [exact Hid|exact Hrep].
Defined.
